(** * XShaderCompiler front end

    A shallow embedding of three translation units of the compiler front end:
    - [Compiler/Frontend/HLSL/HLSLKeywords.cpp]: the keyword tables and the
      lookups [HLSLKeywordToDataType], [HLSLKeywordToStorageClass] and
      [HLSLKeywordToBufferType];
    - [Compiler/AST/TypeDenoter.cpp]: the type denoter hierarchy with
      [Equals], [IsCastableTo], [ToString] and [Ident];
    - [Compiler/PreProcessor.h]: the [IfBlock] record and the if-block stack.

    C++ classes with virtual member functions become one inductive type whose
    constructors are the subclasses; a virtual call becomes a function that
    dispatches on the constructor to the definition of the class that
    overrides it (named [Class_Method]).  A function that can throw
    [std::runtime_error] returns a [result]. *)

From Stdlib Require Import String Ascii List ZArith Lia.
From stdpp Require Import base option gmap strings list.

Local Open Scope string_scope.

(** ** Exceptions *)

(** The outcome of a call: the returned value, or the [std::runtime_error]
    it threw, with its [what()] message. *)
Inductive result (T : Type) : Type :=
  | Ok (v : T)
  | RuntimeError (what : string).

Arguments Ok {T} v.
Arguments RuntimeError {T} what.

Definition raises {T : Type} (r : result T) : Prop :=
  exists what, r = RuntimeError what.

Definition returns {T : Type} (r : result T) : Prop :=
  exists v, r = Ok v.

(** [contains msg s]: the string [s] occurs in [msg]. *)
Definition contains (msg s : string) : Prop :=
  exists before after, msg = before +:+ s +:+ after.

(** ** Enumerations *)

(** [Token::Types], restricted to the members that [GenerateKeywordMap]
    mentions (the enumeration itself is declared in [Token.h]). *)
Module Tokens.
Inductive t : Set :=
  | BoolLiteral | StringType | ScalarType | VectorType
  | MatrixType | Void | Vector | Matrix
  | Do | While | For | If
  | Else | Switch | Case | Default
  | Typedef | Struct | Register | PackOffset
  | Sampler | Texture | StorageBuffer | UniformBuffer
  | CtrlTransfer | Return | InputModifier | StorageModifier
  | TypeModifier | Technique | Pass | Compile
  | Reserved.

#[global] Instance eq_dec : EqDecision t.
Proof. solve_decision. Defined.
End Tokens.

(** [enum class DataType], with the members that [GenerateDataTypeMap]
    mentions: the string type, six scalar types, eighteen vector types and
    fifty-four matrix types. *)
Module DataType.
Inductive t : Set :=
  | String
  | Bool | Int | UInt | Half | Float | Double
  | Bool2 | Bool3 | Bool4
  | Int2 | Int3 | Int4
  | UInt2 | UInt3 | UInt4
  | Half2 | Half3 | Half4
  | Float2 | Float3 | Float4
  | Double2 | Double3 | Double4
  | Bool2x2 | Bool2x3 | Bool2x4
  | Bool3x2 | Bool3x3 | Bool3x4
  | Bool4x2 | Bool4x3 | Bool4x4
  | Int2x2 | Int2x3 | Int2x4
  | Int3x2 | Int3x3 | Int3x4
  | Int4x2 | Int4x3 | Int4x4
  | UInt2x2 | UInt2x3 | UInt2x4
  | UInt3x2 | UInt3x3 | UInt3x4
  | UInt4x2 | UInt4x3 | UInt4x4
  | Half2x2 | Half2x3 | Half2x4
  | Half3x2 | Half3x3 | Half3x4
  | Half4x2 | Half4x3 | Half4x4
  | Float2x2 | Float2x3 | Float2x4
  | Float3x2 | Float3x3 | Float3x4
  | Float4x2 | Float4x3 | Float4x4
  | Double2x2 | Double2x3 | Double2x4
  | Double3x2 | Double3x3 | Double3x4
  | Double4x2 | Double4x3 | Double4x4.

#[global] Instance eq_dec : EqDecision t.
Proof. solve_decision. Defined.
End DataType.

(** [enum class StorageClass]. *)
Module StorageClass.
Inductive t : Set :=
  | Extern | Precise | Shared | GroupShared
  | Static | Uniform | Volatile | NoInterpolation
  | Linear | Centroid | NoPerspective | Sample.

#[global] Instance eq_dec : EqDecision t.
Proof. solve_decision. Defined.
End StorageClass.

(** [enum class BufferType]; the two members [StucturedBuffer] and
    [RWStucturedBuffer] are spelled as in the source. *)
Module BufferType.
Inductive t : Set :=
  | Buffer | StucturedBuffer | ByteAddressBuffer
  | RWBuffer | RWStucturedBuffer | RWByteAddressBuffer
  | AppendStructuredBuffer | ConsumeStructuredBuffer | RWTexture1D
  | RWTexture1DArray | RWTexture2D | RWTexture2DArray
  | RWTexture3D | Texture1D | Texture1DArray
  | Texture2D | Texture2DArray | Texture3D
  | TextureCube | TextureCubeArray | Texture2DMS
  | Texture2DMSArray.

#[global] Instance eq_dec : EqDecision t.
Proof. solve_decision. Defined.
End BufferType.

(** ** Data type predicates ([ASTEnums.h]) *)

(** Modelled from the spec: [IsScalarType], declared in [ASTEnums.h], which is
    not among the sources.  True for the six scalar members of [DataType]. *)
Definition IsScalarType (t : DataType.t) : bool :=
  match t with
  | DataType.Bool | DataType.Int | DataType.UInt
  | DataType.Half | DataType.Float | DataType.Double => true
  | _ => false
  end.

(** Modelled from the spec: [VectorTypeDim], declared in [ASTEnums.h], which
    is not among the sources.  The arity N in {2,3,4} of a vector type; the
    spec gives no value for other types, and [0] stands for it here (no caller
    below reads it on a type that is not a vector). *)
Definition VectorTypeDim (t : DataType.t) : Z :=
  match t with
  | DataType.Bool2 | DataType.Int2 | DataType.UInt2 | DataType.Half2 | DataType.Float2 | DataType.Double2 => 2%Z
  | DataType.Bool3 | DataType.Int3 | DataType.UInt3 | DataType.Half3 | DataType.Float3 | DataType.Double3 => 3%Z
  | DataType.Bool4 | DataType.Int4 | DataType.UInt4 | DataType.Half4 | DataType.Float4 | DataType.Double4 => 4%Z
  | _ => 0%Z
  end.

(** Modelled from the spec: [IsVectorType], declared in [ASTEnums.h], which is
    not among the sources.  True for the eighteen members B2, B3, B4. *)
Definition IsVectorType (t : DataType.t) : bool :=
  match t with
  | DataType.Bool2 | DataType.Int2 | DataType.UInt2 | DataType.Half2 | DataType.Float2 | DataType.Double2
  | DataType.Bool3 | DataType.Int3 | DataType.UInt3 | DataType.Half3 | DataType.Float3 | DataType.Double3
  | DataType.Bool4 | DataType.Int4 | DataType.UInt4 | DataType.Half4 | DataType.Float4 | DataType.Double4 => true
  | _ => false
  end.

(** Modelled from the spec: [MatrixTypeDim], declared in [ASTEnums.h], which
    is not among the sources.  The shape (M,N) of a matrix type; the spec
    gives no value for other types, and [(0,0)] stands for it here (no caller
    below reads it on a type that is not a matrix). *)
Definition MatrixTypeDim (t : DataType.t) : Z * Z :=
  match t with
  | DataType.Bool2x2 | DataType.Int2x2 | DataType.UInt2x2 | DataType.Half2x2 | DataType.Float2x2 | DataType.Double2x2 => (2, 2)%Z
  | DataType.Bool2x3 | DataType.Int2x3 | DataType.UInt2x3 | DataType.Half2x3 | DataType.Float2x3 | DataType.Double2x3 => (2, 3)%Z
  | DataType.Bool2x4 | DataType.Int2x4 | DataType.UInt2x4 | DataType.Half2x4 | DataType.Float2x4 | DataType.Double2x4 => (2, 4)%Z
  | DataType.Bool3x2 | DataType.Int3x2 | DataType.UInt3x2 | DataType.Half3x2 | DataType.Float3x2 | DataType.Double3x2 => (3, 2)%Z
  | DataType.Bool3x3 | DataType.Int3x3 | DataType.UInt3x3 | DataType.Half3x3 | DataType.Float3x3 | DataType.Double3x3 => (3, 3)%Z
  | DataType.Bool3x4 | DataType.Int3x4 | DataType.UInt3x4 | DataType.Half3x4 | DataType.Float3x4 | DataType.Double3x4 => (3, 4)%Z
  | DataType.Bool4x2 | DataType.Int4x2 | DataType.UInt4x2 | DataType.Half4x2 | DataType.Float4x2 | DataType.Double4x2 => (4, 2)%Z
  | DataType.Bool4x3 | DataType.Int4x3 | DataType.UInt4x3 | DataType.Half4x3 | DataType.Float4x3 | DataType.Double4x3 => (4, 3)%Z
  | DataType.Bool4x4 | DataType.Int4x4 | DataType.UInt4x4 | DataType.Half4x4 | DataType.Float4x4 | DataType.Double4x4 => (4, 4)%Z
  | _ => (0, 0)%Z
  end.

(** Modelled from the spec: [IsMatrixType], declared in [ASTEnums.h], which is
    not among the sources.  True for the fifty-four members BMxN. *)
Definition IsMatrixType (t : DataType.t) : bool :=
  match t with
  | DataType.Bool2x2 | DataType.Int2x2 | DataType.UInt2x2 | DataType.Half2x2 | DataType.Float2x2 | DataType.Double2x2
  | DataType.Bool2x3 | DataType.Int2x3 | DataType.UInt2x3 | DataType.Half2x3 | DataType.Float2x3 | DataType.Double2x3
  | DataType.Bool2x4 | DataType.Int2x4 | DataType.UInt2x4 | DataType.Half2x4 | DataType.Float2x4 | DataType.Double2x4
  | DataType.Bool3x2 | DataType.Int3x2 | DataType.UInt3x2 | DataType.Half3x2 | DataType.Float3x2 | DataType.Double3x2
  | DataType.Bool3x3 | DataType.Int3x3 | DataType.UInt3x3 | DataType.Half3x3 | DataType.Float3x3 | DataType.Double3x3
  | DataType.Bool3x4 | DataType.Int3x4 | DataType.UInt3x4 | DataType.Half3x4 | DataType.Float3x4 | DataType.Double3x4
  | DataType.Bool4x2 | DataType.Int4x2 | DataType.UInt4x2 | DataType.Half4x2 | DataType.Float4x2 | DataType.Double4x2
  | DataType.Bool4x3 | DataType.Int4x3 | DataType.UInt4x3 | DataType.Half4x3 | DataType.Float4x3 | DataType.Double4x3
  | DataType.Bool4x4 | DataType.Int4x4 | DataType.UInt4x4 | DataType.Half4x4 | DataType.Float4x4 | DataType.Double4x4 => true
  | _ => false
  end.

(** ** Keyword tables ([HLSLKeywords.cpp]) *)

(** [MapKeywordToType]: [std::map::find], then the mapped value or a
    [std::runtime_error]. *)
Definition MapKeywordToType {T : Type} (typeMap : gmap string T)
    (keyword : string) (typeName : string) : result T :=
  match typeMap !! keyword with
  | Some second => Ok second
  | None =>
      RuntimeError ("failed to map keyword '" +:+ keyword +:+ "' to " +:+ typeName)
  end.

(** A [std::map] built from an initializer list: the entries are inserted in
    order and an entry whose key is already present is dropped, which is what
    [list_to_map] does. *)
Definition GenerateKeywordMap : gmap string Tokens.t :=
  list_to_map [
    ("true",                    Tokens.BoolLiteral);
    ("false",                   Tokens.BoolLiteral);
    ("string",                  Tokens.StringType);
    ("bool",                    Tokens.ScalarType);
    ("bool1",                   Tokens.ScalarType);
    ("bool1x1",                 Tokens.ScalarType);
    ("int",                     Tokens.ScalarType);
    ("int1",                    Tokens.ScalarType);
    ("int1x1",                  Tokens.ScalarType);
    ("uint",                    Tokens.ScalarType);
    ("uint1",                   Tokens.ScalarType);
    ("uint1x1",                 Tokens.ScalarType);
    ("dword",                   Tokens.ScalarType);
    ("dword1",                  Tokens.ScalarType);
    ("dword1x1",                Tokens.ScalarType);
    ("half",                    Tokens.ScalarType);
    ("half1",                   Tokens.ScalarType);
    ("half1x1",                 Tokens.ScalarType);
    ("float",                   Tokens.ScalarType);
    ("float1",                  Tokens.ScalarType);
    ("float1x1",                Tokens.ScalarType);
    ("double",                  Tokens.ScalarType);
    ("double1",                 Tokens.ScalarType);
    ("double1x1",               Tokens.ScalarType);
    ("bool2",                   Tokens.VectorType);
    ("bool3",                   Tokens.VectorType);
    ("bool4",                   Tokens.VectorType);
    ("int2",                    Tokens.VectorType);
    ("int3",                    Tokens.VectorType);
    ("int4",                    Tokens.VectorType);
    ("uint2",                   Tokens.VectorType);
    ("uint3",                   Tokens.VectorType);
    ("uint4",                   Tokens.VectorType);
    ("dword2",                  Tokens.VectorType);
    ("dword3",                  Tokens.VectorType);
    ("dword4",                  Tokens.VectorType);
    ("half2",                   Tokens.VectorType);
    ("half3",                   Tokens.VectorType);
    ("half4",                   Tokens.VectorType);
    ("float2",                  Tokens.VectorType);
    ("float3",                  Tokens.VectorType);
    ("float4",                  Tokens.VectorType);
    ("double2",                 Tokens.VectorType);
    ("double3",                 Tokens.VectorType);
    ("double4",                 Tokens.VectorType);
    ("bool2x2",                 Tokens.MatrixType);
    ("bool2x3",                 Tokens.MatrixType);
    ("bool2x4",                 Tokens.MatrixType);
    ("bool3x2",                 Tokens.MatrixType);
    ("bool3x3",                 Tokens.MatrixType);
    ("bool3x4",                 Tokens.MatrixType);
    ("bool4x2",                 Tokens.MatrixType);
    ("bool4x3",                 Tokens.MatrixType);
    ("bool4x4",                 Tokens.MatrixType);
    ("int2x2",                  Tokens.MatrixType);
    ("int2x3",                  Tokens.MatrixType);
    ("int2x4",                  Tokens.MatrixType);
    ("int3x2",                  Tokens.MatrixType);
    ("int3x3",                  Tokens.MatrixType);
    ("int3x4",                  Tokens.MatrixType);
    ("int4x2",                  Tokens.MatrixType);
    ("int4x3",                  Tokens.MatrixType);
    ("int4x4",                  Tokens.MatrixType);
    ("uint2x2",                 Tokens.MatrixType);
    ("uint2x3",                 Tokens.MatrixType);
    ("uint2x4",                 Tokens.MatrixType);
    ("uint3x2",                 Tokens.MatrixType);
    ("uint3x3",                 Tokens.MatrixType);
    ("uint3x4",                 Tokens.MatrixType);
    ("uint4x2",                 Tokens.MatrixType);
    ("uint4x3",                 Tokens.MatrixType);
    ("uint4x4",                 Tokens.MatrixType);
    ("dword2x2",                Tokens.MatrixType);
    ("dword2x3",                Tokens.MatrixType);
    ("dword2x4",                Tokens.MatrixType);
    ("dword3x2",                Tokens.MatrixType);
    ("dword3x3",                Tokens.MatrixType);
    ("dword3x4",                Tokens.MatrixType);
    ("dword4x2",                Tokens.MatrixType);
    ("dword4x3",                Tokens.MatrixType);
    ("dword4x4",                Tokens.MatrixType);
    ("half2x2",                 Tokens.MatrixType);
    ("half2x3",                 Tokens.MatrixType);
    ("half2x4",                 Tokens.MatrixType);
    ("half3x2",                 Tokens.MatrixType);
    ("half3x3",                 Tokens.MatrixType);
    ("half3x4",                 Tokens.MatrixType);
    ("half4x2",                 Tokens.MatrixType);
    ("half4x3",                 Tokens.MatrixType);
    ("half4x4",                 Tokens.MatrixType);
    ("float2x2",                Tokens.MatrixType);
    ("float2x3",                Tokens.MatrixType);
    ("float2x4",                Tokens.MatrixType);
    ("float3x2",                Tokens.MatrixType);
    ("float3x3",                Tokens.MatrixType);
    ("float3x4",                Tokens.MatrixType);
    ("float4x2",                Tokens.MatrixType);
    ("float4x3",                Tokens.MatrixType);
    ("float4x4",                Tokens.MatrixType);
    ("double2x2",               Tokens.MatrixType);
    ("double2x3",               Tokens.MatrixType);
    ("double2x4",               Tokens.MatrixType);
    ("double3x2",               Tokens.MatrixType);
    ("double3x3",               Tokens.MatrixType);
    ("double3x4",               Tokens.MatrixType);
    ("double4x2",               Tokens.MatrixType);
    ("double4x3",               Tokens.MatrixType);
    ("double4x4",               Tokens.MatrixType);
    ("void",                    Tokens.Void);
    ("vector",                  Tokens.Vector);
    ("matrix",                  Tokens.Matrix);
    ("do",                      Tokens.Do);
    ("while",                   Tokens.While);
    ("for",                     Tokens.For);
    ("if",                      Tokens.If);
    ("else",                    Tokens.Else);
    ("switch",                  Tokens.Switch);
    ("case",                    Tokens.Case);
    ("default",                 Tokens.Default);
    ("typedef",                 Tokens.Typedef);
    ("struct",                  Tokens.Struct);
    ("register",                Tokens.Register);
    ("packoffset",              Tokens.PackOffset);
    ("sampler",                 Tokens.Sampler);
    ("sampler1D",               Tokens.Sampler);
    ("sampler2D",               Tokens.Sampler);
    ("sampler3D",               Tokens.Sampler);
    ("samplerCUBE",             Tokens.Sampler);
    ("sampler_state",           Tokens.Sampler);
    ("SamplerState",            Tokens.Sampler);
    ("SamplerComparisonState",  Tokens.Sampler);
    ("Texture1D",               Tokens.Texture);
    ("Texture1DArray",          Tokens.Texture);
    ("Texture2D",               Tokens.Texture);
    ("Texture2DArray",          Tokens.Texture);
    ("Texture3D",               Tokens.Texture);
    ("TextureCube",             Tokens.Texture);
    ("TextureCubeArray",        Tokens.Texture);
    ("Texture2DMS",             Tokens.Texture);
    ("Texture2DMSArray",        Tokens.Texture);
    ("RWTexture1D",             Tokens.Texture);
    ("RWTexture1DArray",        Tokens.Texture);
    ("RWTexture2D",             Tokens.Texture);
    ("RWTexture2DArray",        Tokens.Texture);
    ("RWTexture3D",             Tokens.Texture);
    ("Buffer",                  Tokens.StorageBuffer);
    ("StructuredBuffer",        Tokens.StorageBuffer);
    ("ByteAddressBuffer",       Tokens.StorageBuffer);
    ("RWBuffer",                Tokens.StorageBuffer);
    ("RWByteAddressBuffer",     Tokens.StorageBuffer);
    ("RWStructuredBuffer",      Tokens.StorageBuffer);
    ("AppendStructuredBuffer",  Tokens.StorageBuffer);
    ("ConsumeStructuredBuffer", Tokens.StorageBuffer);
    ("cbuffer",                 Tokens.UniformBuffer);
    ("tbuffer",                 Tokens.UniformBuffer);
    ("break",                   Tokens.CtrlTransfer);
    ("continue",                Tokens.CtrlTransfer);
    ("discard",                 Tokens.CtrlTransfer);
    ("return",                  Tokens.Return);
    ("uniform",                 Tokens.InputModifier);
    ("in",                      Tokens.InputModifier);
    ("out",                     Tokens.InputModifier);
    ("inout",                   Tokens.InputModifier);
    ("extern",                  Tokens.StorageModifier);
    ("nointerpolation",         Tokens.StorageModifier);
    ("precise",                 Tokens.StorageModifier);
    ("shared",                  Tokens.StorageModifier);
    ("groupshared",             Tokens.StorageModifier);
    ("static",                  Tokens.StorageModifier);
    ("volatile",                Tokens.StorageModifier);
    ("linear",                  Tokens.StorageModifier);
    ("centroid",                Tokens.StorageModifier);
    ("noperspective",           Tokens.StorageModifier);
    ("sample",                  Tokens.StorageModifier);
    ("const",                   Tokens.TypeModifier);
    ("row_major",               Tokens.TypeModifier);
    ("column_major",            Tokens.TypeModifier);
    ("technique",               Tokens.Technique);
    ("pass",                    Tokens.Pass);
    ("compile",                 Tokens.Compile);
    ("auto",                    Tokens.Reserved);
    ("catch",                   Tokens.Reserved);
    ("char",                    Tokens.Reserved);
    ("const_cast",              Tokens.Reserved);
    ("delete",                  Tokens.Reserved);
    ("dynamic_cast",            Tokens.Reserved);
    ("enum",                    Tokens.Reserved);
    ("explicit",                Tokens.Reserved);
    ("friend",                  Tokens.Reserved);
    ("goto",                    Tokens.Reserved);
    ("long",                    Tokens.Reserved);
    ("mutable",                 Tokens.Reserved);
    ("new",                     Tokens.Reserved);
    ("operator",                Tokens.Reserved);
    ("private",                 Tokens.Reserved);
    ("protected",               Tokens.Reserved);
    ("public",                  Tokens.Reserved);
    ("reinterpret_cast",        Tokens.Reserved);
    ("short",                   Tokens.Reserved);
    ("signed",                  Tokens.Reserved);
    ("sizeof",                  Tokens.Reserved);
    ("static_cast",             Tokens.Reserved);
    ("template",                Tokens.Reserved);
    ("this",                    Tokens.Reserved);
    ("throw",                   Tokens.Reserved);
    ("try",                     Tokens.Reserved);
    ("typename",                Tokens.Reserved);
    ("union",                   Tokens.Reserved);
    ("unsigned",                Tokens.Reserved);
    ("using",                   Tokens.Reserved);
    ("virtual",                 Tokens.Reserved)
  ].

Definition HLSLKeywords : gmap string Tokens.t := GenerateKeywordMap.

Definition GenerateDataTypeMap : gmap string DataType.t :=
  list_to_map [
    ("string",    DataType.String);
    ("bool",      DataType.Bool);
    ("bool1",     DataType.Bool);
    ("bool1x1",   DataType.Bool);
    ("int",       DataType.Int);
    ("int1",      DataType.Int);
    ("int1x1",    DataType.Int);
    ("uint",      DataType.UInt);
    ("uint1",     DataType.UInt);
    ("uint1x1",   DataType.UInt);
    ("dword",     DataType.UInt);
    ("dword1",    DataType.UInt);
    ("dword1x1",  DataType.UInt);
    ("half",      DataType.Half);
    ("half1",     DataType.Half);
    ("half1x1",   DataType.Half);
    ("float",     DataType.Float);
    ("float1",    DataType.Float);
    ("float1x1",  DataType.Float);
    ("double",    DataType.Double);
    ("double1",   DataType.Double);
    ("double1x1", DataType.Double);
    ("bool2",     DataType.Bool2);
    ("bool3",     DataType.Bool3);
    ("bool4",     DataType.Bool4);
    ("int2",      DataType.Int2);
    ("int3",      DataType.Int3);
    ("int4",      DataType.Int4);
    ("uint2",     DataType.UInt2);
    ("uint3",     DataType.UInt3);
    ("uint4",     DataType.UInt4);
    ("dword2",    DataType.UInt2);
    ("dword3",    DataType.UInt3);
    ("dword4",    DataType.UInt4);
    ("half2",     DataType.Half2);
    ("half3",     DataType.Half3);
    ("half4",     DataType.Half4);
    ("float2",    DataType.Float2);
    ("float3",    DataType.Float3);
    ("float4",    DataType.Float4);
    ("double2",   DataType.Double2);
    ("double3",   DataType.Double3);
    ("double4",   DataType.Double4);
    ("bool2x2",   DataType.Bool2x2);
    ("bool2x3",   DataType.Bool2x3);
    ("bool2x4",   DataType.Bool2x4);
    ("bool3x2",   DataType.Bool3x2);
    ("bool3x3",   DataType.Bool3x3);
    ("bool3x4",   DataType.Bool3x4);
    ("bool4x2",   DataType.Bool4x2);
    ("bool4x3",   DataType.Bool4x3);
    ("bool4x4",   DataType.Bool4x4);
    ("int2x2",    DataType.Int2x2);
    ("int2x3",    DataType.Int2x3);
    ("int2x4",    DataType.Int2x4);
    ("int3x2",    DataType.Int3x2);
    ("int3x3",    DataType.Int3x3);
    ("int3x4",    DataType.Int3x4);
    ("int4x2",    DataType.Int4x2);
    ("int4x3",    DataType.Int4x3);
    ("int4x4",    DataType.Int4x4);
    ("uint2x2",   DataType.UInt2x2);
    ("uint2x3",   DataType.UInt2x3);
    ("uint2x4",   DataType.UInt2x4);
    ("uint3x2",   DataType.UInt3x2);
    ("uint3x3",   DataType.UInt3x3);
    ("uint3x4",   DataType.UInt3x4);
    ("uint4x2",   DataType.UInt4x2);
    ("uint4x3",   DataType.UInt4x3);
    ("uint4x4",   DataType.UInt4x4);
    ("dword2x2",  DataType.UInt2x2);
    ("dword2x3",  DataType.UInt2x3);
    ("dword2x4",  DataType.UInt2x4);
    ("dword3x2",  DataType.UInt3x2);
    ("dword3x3",  DataType.UInt3x3);
    ("dword3x4",  DataType.UInt3x4);
    ("dword4x2",  DataType.UInt4x2);
    ("dword4x3",  DataType.UInt4x3);
    ("dword4x4",  DataType.UInt4x4);
    ("half2x2",   DataType.Half2x2);
    ("half2x3",   DataType.Half2x3);
    ("half2x4",   DataType.Half2x4);
    ("half3x2",   DataType.Half3x2);
    ("half3x3",   DataType.Half3x3);
    ("half3x4",   DataType.Half3x4);
    ("half4x2",   DataType.Half4x2);
    ("half4x3",   DataType.Half4x3);
    ("half4x4",   DataType.Half4x4);
    ("float2x2",  DataType.Float2x2);
    ("float2x3",  DataType.Float2x3);
    ("float2x4",  DataType.Float2x4);
    ("float3x2",  DataType.Float3x2);
    ("float3x3",  DataType.Float3x3);
    ("float3x4",  DataType.Float3x4);
    ("float4x2",  DataType.Float4x2);
    ("float4x3",  DataType.Float4x3);
    ("float4x4",  DataType.Float4x4);
    ("double2x2", DataType.Double2x2);
    ("double2x3", DataType.Double2x3);
    ("double2x4", DataType.Double2x4);
    ("double3x2", DataType.Double3x2);
    ("double3x3", DataType.Double3x3);
    ("double3x4", DataType.Double3x4);
    ("double4x2", DataType.Double4x2);
    ("double4x3", DataType.Double4x3);
    ("double4x4", DataType.Double4x4)
  ].

Definition HLSLKeywordToDataType (keyword : string) : result DataType.t :=
  MapKeywordToType GenerateDataTypeMap keyword "data type".

Definition GenerateStorageClassMap : gmap string StorageClass.t :=
  list_to_map [
    ("extern",          StorageClass.Extern);
    ("precise",         StorageClass.Precise);
    ("shared",          StorageClass.Shared);
    ("groupshared",     StorageClass.GroupShared);
    ("static",          StorageClass.Static);
    ("uniform",         StorageClass.Uniform);
    ("volatile",        StorageClass.Volatile);
    ("nointerpolation", StorageClass.NoInterpolation);
    ("linear",          StorageClass.Linear);
    ("centroid",        StorageClass.Centroid);
    ("noperspective",   StorageClass.NoPerspective);
    ("sample",          StorageClass.Sample)
  ].

Definition HLSLKeywordToStorageClass (keyword : string) : result StorageClass.t :=
  MapKeywordToType GenerateStorageClassMap keyword "storage class".

Definition GenerateBufferTypeMap : gmap string BufferType.t :=
  list_to_map [
    ("Buffer",                  BufferType.Buffer);
    ("StucturedBuffer",         BufferType.StucturedBuffer);
    ("ByteAddressBuffer",       BufferType.ByteAddressBuffer);
    ("RWBuffer",                BufferType.RWBuffer);
    ("RWStucturedBuffer",       BufferType.RWStucturedBuffer);
    ("RWByteAddressBuffer",     BufferType.RWByteAddressBuffer);
    ("AppendStructuredBuffer",  BufferType.AppendStructuredBuffer);
    ("ConsumeStructuredBuffer", BufferType.ConsumeStructuredBuffer);
    ("RWTexture1D",             BufferType.RWTexture1D);
    ("RWTexture1DArray",        BufferType.RWTexture1DArray);
    ("RWTexture2D",             BufferType.RWTexture2D);
    ("RWTexture2DArray",        BufferType.RWTexture2DArray);
    ("RWTexture3D",             BufferType.RWTexture3D);
    ("Texture1D",               BufferType.Texture1D);
    ("Texture1DArray",          BufferType.Texture1DArray);
    ("Texture2D",               BufferType.Texture2D);
    ("Texture2DArray",          BufferType.Texture2DArray);
    ("Texture3D",               BufferType.Texture3D);
    ("TextureCube",             BufferType.TextureCube);
    ("TextureCubeArray",        BufferType.TextureCubeArray);
    ("Texture2DMS",             BufferType.Texture2DMS);
    ("Texture2DMSArray",        BufferType.Texture2DMSArray)
  ].

Definition HLSLKeywordToBufferType (keyword : string) : result BufferType.t :=
  MapKeywordToType GenerateBufferTypeMap keyword "buffer type".

(** ** Type denoters ([TypeDenoter.cpp]) *)

(** [TypeDenoter::Types], the tag that [Type()] returns. *)
Module Types.
Inductive t : Set :=
  | Void | Base | Buffer | Texture | Sampler | Struct | Alias | Array.

#[global] Instance eq_dec : EqDecision t.
Proof. solve_decision. Defined.
End Types.

(** Modelled from the spec: the struct declaration node ([StructDecl] of
    [AST.h], which is not among the sources); the constructor of
    [StructTypeDenoter] reads its [name] only. *)
Record StructDecl : Set := { name : string }.

(** Modelled from the spec: the classification that a buffer, texture or
    sampler denoter carries (the classes are declared in [TypeDenoter.h],
    which is not among the sources): an enumeration, kept as its ordinal.  No
    function of [TypeDenoter.cpp] reads it. *)
Definition Classification : Set := nat.

(** Modelled from the spec: one entry of [arrayDims] (an expression pointer of
    [AST.h], which is not among the sources): a dimension whose constant value
    is known, or an unbounded one. *)
Inductive ArrayDim : Set :=
  | DimConst (value : Z)
  | DimUnbounded.

(** The class hierarchy below [TypeDenoter].  [baseTypeDenoter] is a shared
    pointer, which can be null: [None]. *)
#[local] Unset Elimination Schemes.
Inductive TypeDenoter : Set :=
  | VoidTypeDenoter
  | BaseTypeDenoter (dataType : DataType.t)
  | BufferTypeDenoter (class : Classification)
  | TextureTypeDenoter (class : Classification)
  | SamplerTypeDenoter (class : Classification)
  | StructTypeDenoter (ident : string) (structDeclRef : option StructDecl)
  | AliasTypeDenoter (ident : string)
  | ArrayTypeDenoter (baseTypeDenoter : option TypeDenoter)
                     (arrayDims : list ArrayDim).
#[local] Set Elimination Schemes.

(** Induction along the chain of inner denoters. *)
Fixpoint TypeDenoter_chain_ind (P : TypeDenoter -> Prop)
    (HVoid : P VoidTypeDenoter)
    (HBase : forall dataType, P (BaseTypeDenoter dataType))
    (HBuffer : forall class, P (BufferTypeDenoter class))
    (HTexture : forall class, P (TextureTypeDenoter class))
    (HSampler : forall class, P (SamplerTypeDenoter class))
    (HStruct : forall ident structDeclRef, P (StructTypeDenoter ident structDeclRef))
    (HAlias : forall ident, P (AliasTypeDenoter ident))
    (HArrayNull : forall arrayDims, P (ArrayTypeDenoter None arrayDims))
    (HArray : forall base arrayDims,
        P base -> P (ArrayTypeDenoter (Some base) arrayDims))
    (self : TypeDenoter) {struct self} : P self :=
  match self with
  | VoidTypeDenoter => HVoid
  | BaseTypeDenoter dataType => HBase dataType
  | BufferTypeDenoter class => HBuffer class
  | TextureTypeDenoter class => HTexture class
  | SamplerTypeDenoter class => HSampler class
  | StructTypeDenoter ident structDeclRef => HStruct ident structDeclRef
  | AliasTypeDenoter ident => HAlias ident
  | ArrayTypeDenoter None arrayDims => HArrayNull arrayDims
  | ArrayTypeDenoter (Some base) arrayDims =>
      HArray base arrayDims
        (TypeDenoter_chain_ind P HVoid HBase HBuffer HTexture HSampler HStruct HAlias
           HArrayNull HArray base)
  end.

(** The two constructors of [StructTypeDenoter] and the one of
    [AliasTypeDenoter]. *)
Definition StructTypeDenoter_of_ident (ident : string) : TypeDenoter :=
  StructTypeDenoter ident None.

Definition StructTypeDenoter_of_decl (structDeclRef : option StructDecl)
  : TypeDenoter :=
  StructTypeDenoter
    (match structDeclRef with Some decl => name decl | None => "" end)
    structDeclRef.

Definition AliasTypeDenoter_of_ident (ident : string) : TypeDenoter :=
  AliasTypeDenoter ident.

(** [Type()], overridden by every subclass. *)
Definition Type_ (self : TypeDenoter) : Types.t :=
  match self with
  | VoidTypeDenoter => Types.Void
  | BaseTypeDenoter _ => Types.Base
  | BufferTypeDenoter _ => Types.Buffer
  | TextureTypeDenoter _ => Types.Texture
  | SamplerTypeDenoter _ => Types.Sampler
  | StructTypeDenoter _ _ => Types.Struct
  | AliasTypeDenoter _ => Types.Alias
  | ArrayTypeDenoter _ _ => Types.Array
  end.

(** [IsScalar], [IsVector], [IsMatrix]: [false] in [TypeDenoter], overridden
    by [BaseTypeDenoter] only. *)
Definition IsScalar (self : TypeDenoter) : bool :=
  match self with
  | BaseTypeDenoter dataType => IsScalarType dataType
  | _ => false
  end.

Definition IsVector (self : TypeDenoter) : bool :=
  match self with
  | BaseTypeDenoter dataType => IsVectorType dataType
  | _ => false
  end.

Definition IsMatrix (self : TypeDenoter) : bool :=
  match self with
  | BaseTypeDenoter dataType => IsMatrixType dataType
  | _ => false
  end.

Definition IsVoid (self : TypeDenoter) : bool :=
  bool_decide (Type_ self = Types.Void).

Definition IsBase (self : TypeDenoter) : bool :=
  bool_decide (Type_ self = Types.Base).

Definition IsBuffer (self : TypeDenoter) : bool :=
  bool_decide (Type_ self = Types.Buffer).

Definition IsSampler (self : TypeDenoter) : bool :=
  bool_decide (Type_ self = Types.Sampler).

Definition IsTexture (self : TypeDenoter) : bool :=
  bool_decide (Type_ self = Types.Texture).

Definition IsStruct (self : TypeDenoter) : bool :=
  bool_decide (Type_ self = Types.Struct).

Definition IsAlias (self : TypeDenoter) : bool :=
  bool_decide (Type_ self = Types.Alias).

Definition IsArray (self : TypeDenoter) : bool :=
  bool_decide (Type_ self = Types.Array).

(** [static_cast<const BaseTypeDenoter&>(rhs).dataType].  Every use below is
    guarded by a test that [rhs] is a [BaseTypeDenoter]. *)
Definition static_cast_dataType (rhs : TypeDenoter) : option DataType.t :=
  match rhs with
  | BaseTypeDenoter dataType => Some dataType
  | _ => None
  end.

(** [TypeDenoter::Equals]. *)
Definition TypeDenoter_Equals (self rhs : TypeDenoter) : bool :=
  bool_decide (Type_ self = Type_ rhs).

(** [BaseTypeDenoter::Equals]; [&&] does not evaluate its right operand when
    the left one is false. *)
Definition BaseTypeDenoter_Equals (dataType : DataType.t) (rhs : TypeDenoter)
  : bool :=
  bool_decide (Type_ rhs = Types.Base)
  && match static_cast_dataType rhs with
     | Some rhs_dataType => bool_decide (dataType = rhs_dataType)
     | None => false
     end.

(** The virtual call [self.Equals(rhs)]: only [BaseTypeDenoter] overrides. *)
Definition Equals (self rhs : TypeDenoter) : bool :=
  match self with
  | BaseTypeDenoter dataType => BaseTypeDenoter_Equals dataType rhs
  | _ => TypeDenoter_Equals self rhs
  end.

(** [TypeDenoter::IsCastableTo]. *)
Definition TypeDenoter_IsCastableTo (self targetType : TypeDenoter) : bool :=
  bool_decide (Type_ self = Type_ targetType).

(** [VoidTypeDenoter::IsCastableTo]. *)
Definition VoidTypeDenoter_IsCastableTo (targetType : TypeDenoter) : bool :=
  false.

(** [BaseTypeDenoter::IsCastableTo], branch by branch; the matrix branch
    tests [targetType.IsVector()], as the source does. *)
Definition BaseTypeDenoter_IsCastableTo (dataType : DataType.t)
    (targetType : TypeDenoter) : bool :=
  if IsScalarType dataType then
    bool_decide (Type_ targetType = Types.Base)
    || bool_decide (Type_ targetType = Types.Struct)
  else if IsVectorType dataType then
    if IsVector targetType then
      match static_cast_dataType targetType with
      | Some target_dataType =>
          IsVector targetType
          && bool_decide (VectorTypeDim dataType = VectorTypeDim target_dataType)
      | None => false
      end
    else false
  else if IsMatrixType dataType then
    if IsMatrix targetType then
      match static_cast_dataType targetType with
      | Some target_dataType =>
          IsVector targetType
          && bool_decide (MatrixTypeDim dataType = MatrixTypeDim target_dataType)
      | None => false
      end
    else false
  else false.

(** The virtual call [self.IsCastableTo(targetType)]. *)
Definition IsCastableTo (self targetType : TypeDenoter) : bool :=
  match self with
  | VoidTypeDenoter => VoidTypeDenoter_IsCastableTo targetType
  | BaseTypeDenoter dataType => BaseTypeDenoter_IsCastableTo dataType targetType
  | _ => TypeDenoter_IsCastableTo self targetType
  end.

(** [Ident()]: the empty string in [TypeDenoter], overridden by
    [StructTypeDenoter] and [AliasTypeDenoter]. *)
Definition Ident (self : TypeDenoter) : string :=
  match self with
  | StructTypeDenoter ident _ => ident
  | AliasTypeDenoter ident => ident
  | _ => ""
  end.

(** [BaseTypeDenoter::ToString]. *)
Definition BaseTypeDenoter_ToString (dataType : DataType.t) : string :=
  if IsScalarType dataType then "scalar"
  else if IsVectorType dataType then "vector"
  else if IsMatrixType dataType then "matrix"
  else "<undefined>".

(** [StructTypeDenoter::ToString]. *)
Definition StructTypeDenoter_ToString (ident : string) : string :=
  "struct " +:+ (if negb (bool_decide (ident = "")) then ident else "<anonymous>").

(** The loop of [ArrayTypeDenoter::ToString]:
    [for (i = 0; i < arrayDims.size(); ++i) typeName += "[]";]
    with [todo] the number of iterations still to run, [arrayDims.size() - i]. *)
Fixpoint append_brackets (todo : nat) (typeName : string) : string :=
  match todo with
  | O => typeName
  | S todo' => append_brackets todo' (typeName +:+ "[]")
  end.

(** The virtual call [self.ToString()].  [ArrayTypeDenoter::ToString] throws
    when [baseTypeDenoter] is null, and an exception thrown by
    [baseTypeDenoter->ToString()] leaves it uncaught. *)
Fixpoint ToString (self : TypeDenoter) : result string :=
  match self with
  | VoidTypeDenoter => Ok "void"
  | BaseTypeDenoter dataType => Ok (BaseTypeDenoter_ToString dataType)
  | BufferTypeDenoter _ => Ok "buffer"
  | TextureTypeDenoter _ => Ok "texture"
  | SamplerTypeDenoter _ => Ok "sampler"
  | StructTypeDenoter ident _ => Ok (StructTypeDenoter_ToString ident)
  | AliasTypeDenoter ident => Ok ident
  | ArrayTypeDenoter baseTypeDenoter arrayDims =>
      match baseTypeDenoter with
      | None => RuntimeError "missing base type in array type denoter"
      | Some base =>
          match ToString base with
          | Ok typeName => Ok (append_brackets (length arrayDims) typeName)
          | RuntimeError what => RuntimeError what
          end
      end
  end.

(** The invariant on array denoters: the inner denoter is not null, and is
    itself a valid denoter. *)
Fixpoint valid (self : TypeDenoter) : bool :=
  match self with
  | ArrayTypeDenoter None _ => false
  | ArrayTypeDenoter (Some base) _ => valid base
  | _ => true
  end.

(** [k] copies of ["[]"], one after the other. *)
Definition brackets (k : nat) : string :=
  String.concat "" (replicate k "[]").

(** The denoter at the end of the chain of inner denoters: the first one that
    is not an array denoter, or [None] when the chain ends in a null
    [baseTypeDenoter]. *)
Fixpoint innermost (self : TypeDenoter) : option TypeDenoter :=
  match self with
  | ArrayTypeDenoter None _ => None
  | ArrayTypeDenoter (Some base) _ => innermost base
  | _ => Some self
  end.

(** The number of dimensions of all the array denoters on the chain of inner
    denoters, [arrayDims.size()] summed up. *)
Fixpoint total_dims (self : TypeDenoter) : nat :=
  match self with
  | ArrayTypeDenoter None arrayDims => length arrayDims
  | ArrayTypeDenoter (Some base) arrayDims => total_dims base + length arrayDims
  | _ => 0
  end.

(** ** The if-block stack ([PreProcessor.h]) *)

(** Modelled from the spec: [TokenPtr], a shared pointer to a token (the class
    is declared in [Token.h], which is not among the sources): the token by
    its spelling; a null pointer is [None]. *)
Definition TokenPtr : Set := option string.

(** Modelled from the spec: [SourceCodePtr], a shared pointer to a source (the
    class is declared in [SourceCode.h], which is not among the sources): the
    source by its file name; a null pointer is [None]. *)
Definition SourceCodePtr : Set := option string.

(** [struct IfBlock], with its default member initialisers. *)
Record IfBlock : Set := {
  directiveToken : TokenPtr;
  directiveSource : SourceCodePtr;
  active : bool;
  expectEndif : bool
}.

(** [IfBlock()]: the pointers are null, [active = true] and
    [expectEndif = false]. *)
Definition IfBlock_default : IfBlock :=
  {| directiveToken := None; directiveSource := None;
     active := true; expectEndif := false |}.

(** Modelled from the spec: [PreProcessor::TopIfBlock], defined in
    [PreProcessor.cpp], which is not among the sources.  The header says:
    returns the if-block state from the top of the stack; if the stack is
    empty, the default state is returned. *)
Definition TopIfBlock (ifBlockStack_ : list IfBlock) : IfBlock :=
  match ifBlockStack_ with
  | top :: _ => top
  | [] => IfBlock_default
  end.

(** Modelled from the spec: [PreProcessor::PushIfBlock], defined in
    [PreProcessor.cpp], which is not among the sources.  The pushed block is
    active iff the enclosing block is active and the [active] argument (the
    condition held, and no earlier branch of the group was taken) is true.
    [source] is the source the scanner reads at the directive. *)
Definition PushIfBlock (source : SourceCodePtr) (token : TokenPtr)
    (active_ expectEndif_ : bool) (ifBlockStack_ : list IfBlock) : list IfBlock :=
  {| directiveToken := token; directiveSource := source;
     active := active (TopIfBlock ifBlockStack_) && active_;
     expectEndif := expectEndif_ |} :: ifBlockStack_.

(** [PushIfBlock(directiveToken)]: the declaration gives the defaults
    [active = false] and [expectEndif = false]. *)
Definition PushIfBlock_default (source : SourceCodePtr) (token : TokenPtr)
    (ifBlockStack_ : list IfBlock) : list IfBlock :=
  PushIfBlock source token false false ifBlockStack_.

(** Modelled from the spec: what an inactive block emits for a piece of text
    (the pre-processor's output is written in [PreProcessor.cpp], which is not
    among the sources): only the newlines of the text, which keeps the line
    numbers aligned. *)
Fixpoint only_newlines (text : string) : string :=
  match text with
  | EmptyString => EmptyString
  | String c rest =>
      if Ascii.eqb c "010"%char then String c (only_newlines rest)
      else only_newlines rest
  end.

(** Modelled from the spec: the output for a piece of text without directives
    ([PreProcessor::ParseProgram] and the parse functions it calls are defined
    in [PreProcessor.cpp], which is not among the sources).  When the state
    that [TopIfBlock] returns is active the text is processed: it is emitted
    with its macros expanded, [expand] being the expansion by the macros
    defined at that point.  When it is not active, only the newlines of the
    text are emitted. *)
Definition ProcessText (expand : string -> string)
    (ifBlockStack_ : list IfBlock) (text : string) : string :=
  if active (TopIfBlock ifBlockStack_) then expand text
  else only_newlines text.

(** Spellings that the alias-folding property ranges over. *)
Definition scalar_bases : list string :=
  ["bool"; "int"; "uint"; "half"; "float"; "double"].

Definition dimensions : list string := ["2"; "3"; "4"].

(** * Properties *)

(** ** Strings *)

Lemma append_cons (a : ascii) (s t : string) :
  String a s +:+ t = String a (s +:+ t).
Proof. reflexivity. Qed.

Lemma append_nil_r (s : string) : s +:+ "" = s.
Proof.
  induction s as [|a s IH]; [reflexivity|].
  rewrite append_cons. now rewrite IH.
Qed.

Lemma append_assoc (s t u : string) : (s +:+ t) +:+ u = s +:+ t +:+ u.
Proof.
  induction s as [|a s IH]; [reflexivity|].
  rewrite !append_cons. now rewrite IH.
Qed.

Lemma contains_infix (before s after : string) :
  contains (before +:+ s +:+ after) s.
Proof. now exists before, after. Qed.

Lemma contains_suffix (before s : string) : contains (before +:+ s) s.
Proof. exists before, "". now rewrite append_nil_r. Qed.

(** ** Keyword tables *)

Section MapKeywordToType.
Context {T : Type} (typeMap : gmap string T) (typeName : string).

Lemma MapKeywordToType_hit (keyword : string) (v : T) :
  typeMap !! keyword = Some v ->
  MapKeywordToType typeMap keyword typeName = Ok v.
Proof. intros Hfind. unfold MapKeywordToType. now rewrite Hfind. Qed.

Lemma MapKeywordToType_miss (keyword : string) :
  typeMap !! keyword = None ->
  exists what,
    MapKeywordToType typeMap keyword typeName = RuntimeError what
    /\ contains what keyword /\ contains what typeName.
Proof.
  intros Hfind. unfold MapKeywordToType. rewrite Hfind.
  eexists. split; [reflexivity|]. split.
  - apply contains_infix.
  - rewrite <- !append_assoc. apply contains_suffix.
Qed.

Lemma MapKeywordToType_returns_iff (keyword : string) :
  returns (MapKeywordToType typeMap keyword typeName)
  <-> is_Some (typeMap !! keyword).
Proof.
  unfold MapKeywordToType, returns.
  destruct (typeMap !! keyword) as [v|]; split.
  - intros _. now exists v.
  - intros _. now exists v.
  - intros [v Hv]. discriminate.
  - intros [v Hv]. discriminate.
Qed.

End MapKeywordToType.

(** C6: a spelling that is not a key of the table makes each of
    [HLSLKeywordToDataType], [HLSLKeywordToStorageClass] and
    [HLSLKeywordToBufferType] throw an error whose message contains the
    spelling and the name of the expected category (["data type"],
    ["storage class"], ["buffer type"]); a spelling that is a key makes it
    return the mapped value. *)
Theorem keyword_lookup_miss_and_hit (s : string) :
  ((GenerateDataTypeMap !! s = None ->
    exists what, HLSLKeywordToDataType s = RuntimeError what
                 /\ contains what s /\ contains what "data type")
   /\ (forall v, GenerateDataTypeMap !! s = Some v ->
                 HLSLKeywordToDataType s = Ok v))
  /\ ((GenerateStorageClassMap !! s = None ->
       exists what, HLSLKeywordToStorageClass s = RuntimeError what
                    /\ contains what s /\ contains what "storage class")
      /\ (forall v, GenerateStorageClassMap !! s = Some v ->
                    HLSLKeywordToStorageClass s = Ok v))
  /\ ((GenerateBufferTypeMap !! s = None ->
       exists what, HLSLKeywordToBufferType s = RuntimeError what
                    /\ contains what s /\ contains what "buffer type")
      /\ (forall v, GenerateBufferTypeMap !! s = Some v ->
                    HLSLKeywordToBufferType s = Ok v)).
Proof.
  repeat split;
    first [ apply MapKeywordToType_miss | intros v; apply MapKeywordToType_hit ].
Qed.

Lemma keyword_lookup_miss_and_hit_witness :
  (exists what, HLSLKeywordToDataType "float5" = RuntimeError what
                /\ contains what "float5" /\ contains what "data type")
  /\ HLSLKeywordToDataType "float4" = Ok DataType.Float4
  /\ (exists what, HLSLKeywordToStorageClass "float4" = RuntimeError what
                   /\ contains what "float4" /\ contains what "storage class")
  /\ HLSLKeywordToStorageClass "groupshared" = Ok StorageClass.GroupShared
  /\ (exists what, HLSLKeywordToBufferType "float4" = RuntimeError what
                   /\ contains what "float4" /\ contains what "buffer type")
  /\ HLSLKeywordToBufferType "Texture2DMS" = Ok BufferType.Texture2DMS.
Proof.
  repeat apply conj.
  - apply (proj1 (proj1 (keyword_lookup_miss_and_hit "float5"))).
    vm_compute. reflexivity.
  - apply (proj2 (proj1 (keyword_lookup_miss_and_hit "float4"))).
    vm_compute. reflexivity.
  - apply (proj1 (proj1 (proj2 (keyword_lookup_miss_and_hit "float4")))).
    vm_compute. reflexivity.
  - apply (proj2 (proj1 (proj2 (keyword_lookup_miss_and_hit "groupshared")))).
    vm_compute. reflexivity.
  - apply (proj1 (proj2 (proj2 (keyword_lookup_miss_and_hit "float4")))).
    vm_compute. reflexivity.
  - apply (proj2 (proj2 (proj2 (keyword_lookup_miss_and_hit "Texture2DMS")))).
    vm_compute. reflexivity.
Defined.

(** C3: the buffer type table has the keys ["StucturedBuffer"] and
    ["RWStucturedBuffer"]; the spellings ["StructuredBuffer"] and
    ["RWStructuredBuffer"], which the keyword table of the same file
    classifies as storage buffer keywords, are not keys of it, and
    [HLSLKeywordToBufferType] throws on them. *)
Theorem StructuredBuffer_keyword_not_mapped :
  HLSLKeywordToBufferType "StructuredBuffer"
  = RuntimeError "failed to map keyword 'StructuredBuffer' to buffer type"
  /\ HLSLKeywordToBufferType "RWStructuredBuffer"
     = RuntimeError "failed to map keyword 'RWStructuredBuffer' to buffer type"
  /\ HLSLKeywordToBufferType "StucturedBuffer" = Ok BufferType.StucturedBuffer
  /\ HLSLKeywordToBufferType "RWStucturedBuffer" = Ok BufferType.RWStucturedBuffer
  /\ HLSLKeywords !! "StructuredBuffer" = Some Tokens.StorageBuffer
  /\ HLSLKeywords !! "RWStructuredBuffer" = Some Tokens.StorageBuffer
  /\ HLSLKeywords !! "StucturedBuffer" = None
  /\ HLSLKeywords !! "RWStucturedBuffer" = None.
Proof. repeat split; vm_compute; reflexivity. Qed.

(** The other six buffer spellings of the keyword table are keys of the
    buffer type table. *)
Lemma storage_buffer_keywords_mapped :
  HLSLKeywordToBufferType "Buffer" = Ok BufferType.Buffer
  /\ HLSLKeywordToBufferType "ByteAddressBuffer" = Ok BufferType.ByteAddressBuffer
  /\ HLSLKeywordToBufferType "RWBuffer" = Ok BufferType.RWBuffer
  /\ HLSLKeywordToBufferType "RWByteAddressBuffer" = Ok BufferType.RWByteAddressBuffer
  /\ HLSLKeywordToBufferType "AppendStructuredBuffer"
     = Ok BufferType.AppendStructuredBuffer
  /\ HLSLKeywordToBufferType "ConsumeStructuredBuffer"
     = Ok BufferType.ConsumeStructuredBuffer.
Proof. repeat split; vm_compute; reflexivity. Qed.

(** C5: for every scalar base B the spellings B, B1 and B1x1 map to the same
    scalar [DataType]; for every i in 2..4, dword-i maps to the same
    [DataType] as uint-i, and for all M, N in 2..4, dword-MxN maps to the same
    [DataType] as uint-MxN. *)
Theorem DataType_alias_folding :
  Forall (fun B =>
            exists d, HLSLKeywordToDataType B = Ok d
                      /\ HLSLKeywordToDataType (B +:+ "1") = Ok d
                      /\ HLSLKeywordToDataType (B +:+ "1x1") = Ok d
                      /\ IsScalarType d = true)
         scalar_bases
  /\ Forall (fun i =>
               exists d, HLSLKeywordToDataType ("uint" +:+ i) = Ok d
                         /\ HLSLKeywordToDataType ("dword" +:+ i) = Ok d
                         /\ IsVectorType d = true)
            dimensions
  /\ Forall (fun M =>
               Forall (fun N =>
                         exists d,
                           HLSLKeywordToDataType ("uint" +:+ M +:+ "x" +:+ N) = Ok d
                           /\ HLSLKeywordToDataType ("dword" +:+ M +:+ "x" +:+ N) = Ok d
                           /\ IsMatrixType d = true)
                      dimensions)
            dimensions.
Proof.
  unfold scalar_bases, dimensions.
  repeat first
    [ apply Forall_nil_2
    | apply Forall_cons_2
    | apply conj
    | eexists; split; [reflexivity | repeat apply conj; vm_compute; reflexivity] ].
Qed.

(** The dword spellings fold onto the uint members themselves, also for the
    scalar. *)
Lemma dword_is_uint :
  HLSLKeywordToDataType "dword" = Ok DataType.UInt
  /\ HLSLKeywordToDataType "dword1" = Ok DataType.UInt
  /\ HLSLKeywordToDataType "dword1x1" = Ok DataType.UInt
  /\ HLSLKeywordToDataType "dword3" = Ok DataType.UInt3
  /\ HLSLKeywordToDataType "dword4x2" = Ok DataType.UInt4x2.
Proof. repeat split; vm_compute; reflexivity. Qed.

(** ** Data type predicates *)

Lemma IsMatrixType_not_scalar_vector (t : DataType.t) :
  IsMatrixType t = true -> IsScalarType t = false /\ IsVectorType t = false.
Proof. destruct t; cbn; intros H; (discriminate H || (split; reflexivity)). Qed.

Lemma IsVectorType_not_scalar_matrix (t : DataType.t) :
  IsVectorType t = true -> IsScalarType t = false /\ IsMatrixType t = false.
Proof. destruct t; cbn; intros H; (discriminate H || (split; reflexivity)). Qed.

Lemma not_scalar_vector_matrix_is_String (t : DataType.t) :
  IsScalarType t = false -> IsVectorType t = false -> IsMatrixType t = false ->
  t = DataType.String.
Proof. destruct t; cbn; intros H1 H2 H3; (reflexivity || discriminate). Qed.

(** ** Equality of type denoters *)

(** What [Equals] compares: the tag, and for a base denoter the data type. *)
Lemma Equals_true_iff (self rhs : TypeDenoter) :
  Equals self rhs = true
  <-> Type_ self = Type_ rhs
      /\ static_cast_dataType self = static_cast_dataType rhs.
Proof.
  destruct self, rhs; cbn;
    unfold BaseTypeDenoter_Equals, TypeDenoter_Equals; cbn [Type_ static_cast_dataType];
    rewrite ?andb_true_iff, ?bool_decide_eq_true;
    split; intros H; repeat split; try tauto; try (destruct H; congruence);
    try discriminate.
Qed.

Lemma Equals_false_iff (self rhs : TypeDenoter) :
  Equals self rhs = false <-> ~ Equals self rhs = true.
Proof. destruct (Equals self rhs); split; congruence. Qed.

(** C4: [Equals] is reflexive, symmetric and transitive over all denoters,
    and denoters with different [Type()] tags are never equal. *)
Theorem Equals_equivalence_variant_disjoint :
  (forall a, Equals a a = true)
  /\ (forall a b, Equals a b = true -> Equals b a = true)
  /\ (forall a b c, Equals a b = true -> Equals b c = true -> Equals a c = true)
  /\ (forall a b, Type_ a <> Type_ b -> Equals a b = false).
Proof.
  repeat apply conj.
  - intros a. now apply Equals_true_iff.
  - intros a b [Htag Hdata]%Equals_true_iff. now apply Equals_true_iff.
  - intros a b c [Hab Hab']%Equals_true_iff [Hbc Hbc']%Equals_true_iff.
    apply Equals_true_iff. split; congruence.
  - intros a b Hne. apply Equals_false_iff.
    intros [Htag _]%Equals_true_iff. contradiction.
Qed.

Lemma Equals_equivalence_variant_disjoint_witness :
  Equals (ArrayTypeDenoter (Some (BaseTypeDenoter DataType.Float3)) [DimConst 4])
         (ArrayTypeDenoter (Some (BaseTypeDenoter DataType.Float3)) [DimConst 4])
  = true
  /\ Equals (BaseTypeDenoter DataType.Int2) (BaseTypeDenoter DataType.Int2) = true
  /\ Equals (TextureTypeDenoter 1) (TextureTypeDenoter 0) = true
  /\ Equals (BaseTypeDenoter DataType.Half) (StructTypeDenoter "Half" None) = false.
Proof.
  destruct Equals_equivalence_variant_disjoint as (Hrefl & Hsym & Htrans & Hdisj).
  repeat apply conj.
  - apply Hrefl.
  - apply Hsym. vm_compute. reflexivity.
  - apply (Htrans _ (TextureTypeDenoter 2)); vm_compute; reflexivity.
  - apply Hdisj. cbn. discriminate.
Defined.

(** C2, as the code has it: on struct, alias and array denoters [Equals] is
    the inherited [TypeDenoter::Equals], which compares the tags only; two
    struct denoters are equal whatever their identifiers, two alias denoters
    likewise, and two array denoters whatever their inner denoters and
    dimension lists. *)
Theorem Equals_struct_alias_array_tag_only :
  (forall ident1 ref1 ident2 ref2,
      Equals (StructTypeDenoter ident1 ref1) (StructTypeDenoter ident2 ref2) = true)
  /\ (forall ident1 ident2,
         Equals (AliasTypeDenoter ident1) (AliasTypeDenoter ident2) = true)
  /\ (forall base1 dims1 base2 dims2,
         Equals (ArrayTypeDenoter base1 dims1) (ArrayTypeDenoter base2 dims2) = true)
  /\ (forall ident ref rhs, Equals (StructTypeDenoter ident ref) rhs = IsStruct rhs)
  /\ (forall ident rhs, Equals (AliasTypeDenoter ident) rhs = IsAlias rhs)
  /\ (forall base dims rhs, Equals (ArrayTypeDenoter base dims) rhs = IsArray rhs).
Proof.
  repeat apply conj; try reflexivity; intros; destruct rhs; reflexivity.
Qed.

(** C2, as stated, fails: two struct denoters with the identifiers ["A"] and
    ["B"] are equal; so are two alias denoters with different identifiers and
    two array denoters with different inner denoters and dimension lists. *)
Lemma Equals_struct_ident_counterexample :
  ~ (Equals (StructTypeDenoter "A" None) (StructTypeDenoter "B" None) = true
     <-> "A" = "B")
  /\ ~ (Equals (AliasTypeDenoter "A") (AliasTypeDenoter "B") = true -> "A" = "B")
  /\ ~ (Equals (ArrayTypeDenoter (Some VoidTypeDenoter) [DimConst 1])
               (ArrayTypeDenoter (Some (BaseTypeDenoter DataType.Float))
                                 [DimConst 2; DimUnbounded]) = true ->
        Some VoidTypeDenoter = Some (BaseTypeDenoter DataType.Float)
        /\ [DimConst 1] = [DimConst 2; DimUnbounded]).
Proof.
  repeat apply conj.
  - intros [H _]. specialize (H eq_refl). discriminate H.
  - intros H. specialize (H eq_refl). discriminate H.
  - intros H. destruct (H eq_refl) as [H1 _]. discriminate H1.
Qed.

(** ** Castability *)

(** In the matrix branch of [BaseTypeDenoter::IsCastableTo] the result is
    [targetType.IsVector() && ...] under the guard [targetType.IsMatrix()]:
    no target passes both, so a matrix denoter is castable to nothing. *)
Lemma matrix_castable_to_nothing (dataType : DataType.t) (targetType : TypeDenoter) :
  IsMatrixType dataType = true ->
  IsCastableTo (BaseTypeDenoter dataType) targetType = false.
Proof.
  intros Hmat. cbn. unfold BaseTypeDenoter_IsCastableTo.
  destruct (IsMatrixType_not_scalar_vector _ Hmat) as [-> ->]. rewrite Hmat.
  destruct (IsMatrix targetType) eqn:Htarget; [|reflexivity].
  destruct targetType as [|target_dataType| | | | | |]; try discriminate Htarget.
  cbn in *.
  destruct (IsMatrixType_not_scalar_vector _ Htarget) as [_ ->]. reflexivity.
Qed.

Lemma matrix_castable_to_nothing_witness :
  IsCastableTo (BaseTypeDenoter DataType.Int3x2) (BaseTypeDenoter DataType.Int3x2)
  = false.
Proof. apply matrix_castable_to_nothing. reflexivity. Defined.

(** The sibling branch: a vector denoter is castable exactly to the vector
    denoters of its arity. *)
Lemma vector_castable_iff (dataType : DataType.t) (targetType : TypeDenoter) :
  IsVectorType dataType = true ->
  IsCastableTo (BaseTypeDenoter dataType) targetType = true
  <-> exists target_dataType,
        targetType = BaseTypeDenoter target_dataType
        /\ IsVectorType target_dataType = true
        /\ VectorTypeDim dataType = VectorTypeDim target_dataType.
Proof.
  intros Hvec. cbn. unfold BaseTypeDenoter_IsCastableTo.
  destruct (IsVectorType_not_scalar_matrix _ Hvec) as [-> _]. rewrite Hvec.
  destruct targetType as [|target_dataType| | | | | |]; cbn;
    try (split; [discriminate | intros (d & Heq & _); discriminate Heq]).
  destruct (IsVectorType target_dataType) eqn:Htarget; cbn.
  - rewrite bool_decide_eq_true. split.
    + intros Hdim. now exists target_dataType.
    + intros (d & [= <-] & _ & Hdim). exact Hdim.
  - split; [discriminate|]. intros (d & [= <-] & Hd & _). congruence.
Qed.

Lemma vector_castable_iff_witness :
  IsCastableTo (BaseTypeDenoter DataType.Float3) (BaseTypeDenoter DataType.Int3)
  = true.
Proof.
  apply (proj2 (vector_castable_iff DataType.Float3 (BaseTypeDenoter DataType.Int3)
                                    eq_refl)).
  exists DataType.Int3. repeat split.
Defined.

(** C1: the code at a matrix denoter and a target of the same shape.
    [Float4x4] is a matrix of shape (4,4), and [IsCastableTo] answers [false]
    for the target [Float4x4] (and for [Int4x4], of the same shape), where the
    vector branch answers [true] for [Float4] and [Float4]. *)
Theorem matrix_not_castable_to_same_shape :
  IsMatrix (BaseTypeDenoter DataType.Float4x4) = true
  /\ MatrixTypeDim DataType.Float4x4 = (4, 4)%Z
  /\ MatrixTypeDim DataType.Int4x4 = (4, 4)%Z
  /\ IsCastableTo (BaseTypeDenoter DataType.Float4x4)
                  (BaseTypeDenoter DataType.Float4x4) = false
  /\ IsCastableTo (BaseTypeDenoter DataType.Float4x4)
                  (BaseTypeDenoter DataType.Int4x4) = false
  /\ IsCastableTo (BaseTypeDenoter DataType.Float4)
                  (BaseTypeDenoter DataType.Float4) = true.
Proof. repeat apply conj; vm_compute; reflexivity. Qed.

(** ** Printing *)

(** C9: a base denoter whose data type is neither a scalar, a vector nor a
    matrix type prints as ["<undefined>"]. *)
Theorem BaseTypeDenoter_ToString_undefined (dataType : DataType.t) :
  IsScalarType dataType = false ->
  IsVectorType dataType = false ->
  IsMatrixType dataType = false ->
  ToString (BaseTypeDenoter dataType) = Ok "<undefined>".
Proof.
  intros Hscalar Hvector Hmatrix. cbn. unfold BaseTypeDenoter_ToString.
  now rewrite Hscalar, Hvector, Hmatrix.
Qed.

Lemma BaseTypeDenoter_ToString_undefined_witness :
  ToString (BaseTypeDenoter DataType.String) = Ok "<undefined>".
Proof. apply BaseTypeDenoter_ToString_undefined; reflexivity. Defined.

Lemma brackets_S (k : nat) : brackets (S k) = "[]" +:+ brackets k.
Proof. destruct k; reflexivity. Qed.

(** The loop appends [todo] copies of ["[]"]. *)
Lemma append_brackets_spec (todo : nat) (typeName : string) :
  append_brackets todo typeName = typeName +:+ brackets todo.
Proof.
  revert typeName. induction todo as [|todo IH]; intros typeName.
  - cbn. now rewrite append_nil_r.
  - cbn [append_brackets]. rewrite IH, brackets_S. apply append_assoc.
Qed.

(** The outcome of [ToString] on an array denoter from the outcome on its
    inner denoter: the string with the brackets appended, or the same
    error. *)
Lemma ArrayTypeDenoter_ToString_of_inner (T : TypeDenoter)
    (arrayDims : list ArrayDim) :
  ToString (ArrayTypeDenoter (Some T) arrayDims)
  = match ToString T with
    | Ok s => Ok (s +:+ brackets (length arrayDims))
    | RuntimeError what => RuntimeError what
    end.
Proof.
  cbn [ToString]. destruct (ToString T) as [s|what]; [|reflexivity].
  now rewrite append_brackets_spec.
Qed.

(** The typedef scenario: an array with two dimensions over the alias
    [Color] prints as ["Color[][]"]. *)
Lemma ToString_Color_array :
  ToString (ArrayTypeDenoter (Some (AliasTypeDenoter_of_ident "Color"))
                             [DimConst 3; DimConst 2])
  = Ok "Color[][]".
Proof. vm_compute. reflexivity. Qed.

(** [ToString] returns on the valid denoters and throws on the others. *)
Lemma ToString_returns_iff (self : TypeDenoter) :
  returns (ToString self) <-> valid self = true.
Proof.
  induction self as [| | | | | | |arrayDims|base arrayDims IH]
    using TypeDenoter_chain_ind;
    try (split; [reflexivity | intros _; eexists; reflexivity]).
  - split; [intros [s Hs]; discriminate Hs | discriminate].
  - cbn [ToString valid]. rewrite <- IH.
    destruct (ToString base) as [s|what]; split.
    + intros _. now exists s.
    + intros _. eexists. reflexivity.
    + intros [s Hs]. discriminate Hs.
    + intros [s Hs]. discriminate Hs.
Qed.

Lemma raises_iff_not_returns {T : Type} (r : result T) :
  raises r <-> ~ returns r.
Proof.
  destruct r as [v|what]; split.
  - intros [w Hw]. discriminate Hw.
  - intros Hnot. exfalso. apply Hnot. now exists v.
  - intros _ [v Hv]. discriminate Hv.
  - intros _. now exists what.
Qed.

Lemma ToString_raises_iff (self : TypeDenoter) :
  raises (ToString self) <-> valid self = false.
Proof.
  rewrite raises_iff_not_returns, ToString_returns_iff.
  destruct (valid self); split; congruence.
Qed.

(** C7: for an array denoter with the inner denoter [T], not null and itself
    valid, and [k] dimensions, [T.ToString()] returns a string [s] and the
    array's [ToString()] returns exactly [s] followed by [k] copies of
    ["[]"]. *)
Theorem ArrayTypeDenoter_ToString_brackets (T : TypeDenoter)
    (arrayDims : list ArrayDim) :
  valid T = true ->
  exists s,
    ToString T = Ok s
    /\ ToString (ArrayTypeDenoter (Some T) arrayDims)
       = Ok (s +:+ brackets (length arrayDims)).
Proof.
  intros Hvalid. apply ToString_returns_iff in Hvalid as [s Hs].
  exists s. split; [exact Hs|].
  cbn [ToString]. rewrite Hs. now rewrite append_brackets_spec.
Qed.

Lemma ArrayTypeDenoter_ToString_brackets_witness :
  exists s,
    ToString (AliasTypeDenoter "Color") = Ok s
    /\ ToString (ArrayTypeDenoter (Some (AliasTypeDenoter "Color"))
                                  [DimConst 3; DimConst 2])
       = Ok (s +:+ brackets 2).
Proof.
  apply (ArrayTypeDenoter_ToString_brackets (AliasTypeDenoter "Color")
                                            [DimConst 3; DimConst 2]).
  reflexivity.
Defined.

(** C8, as the code has it: [ArrayTypeDenoter::ToString] throws iff its inner
    denoter is null or the inner denoter's [ToString] throws, that is, iff an
    array denoter on the chain of inner denoters has a null inner denoter;
    when every array denoter on the chain has an inner denoter, it returns. *)
Theorem ArrayTypeDenoter_ToString_raises_iff
    (baseTypeDenoter : option TypeDenoter) (arrayDims : list ArrayDim) :
  (raises (ToString (ArrayTypeDenoter baseTypeDenoter arrayDims))
   <-> baseTypeDenoter = None
       \/ exists T, baseTypeDenoter = Some T /\ raises (ToString T))
  /\ (raises (ToString (ArrayTypeDenoter baseTypeDenoter arrayDims))
      <-> valid (ArrayTypeDenoter baseTypeDenoter arrayDims) = false)
  /\ (valid (ArrayTypeDenoter baseTypeDenoter arrayDims) = true ->
      returns (ToString (ArrayTypeDenoter baseTypeDenoter arrayDims))).
Proof.
  split; [|split].
  - destruct baseTypeDenoter as [T|].
    + rewrite ToString_raises_iff. cbn [valid]. split.
      * intros Hinvalid. right. exists T. split; [reflexivity|].
        now apply ToString_raises_iff.
      * intros [Hnull | (T' & [= <-] & Hraises)]; [discriminate Hnull|].
        now apply ToString_raises_iff.
    + split; [now left|]. intros _. eexists. reflexivity.
  - apply ToString_raises_iff.
  - apply ToString_returns_iff.
Qed.

Lemma ArrayTypeDenoter_ToString_raises_iff_witness :
  raises (ToString (ArrayTypeDenoter None [DimUnbounded]))
  /\ raises (ToString (ArrayTypeDenoter
                         (Some (ArrayTypeDenoter None [DimConst 2])) []))
  /\ returns (ToString (ArrayTypeDenoter
                          (Some (ArrayTypeDenoter (Some VoidTypeDenoter) []))
                          [DimConst 2])).
Proof.
  repeat apply conj.
  - apply (proj1 (ArrayTypeDenoter_ToString_raises_iff None [DimUnbounded])).
    left. reflexivity.
  - apply (proj1 (proj2 (ArrayTypeDenoter_ToString_raises_iff
                           (Some (ArrayTypeDenoter None [DimConst 2])) []))).
    reflexivity.
  - apply (proj2 (proj2 (ArrayTypeDenoter_ToString_raises_iff
                           (Some (ArrayTypeDenoter (Some VoidTypeDenoter) []))
                           [DimConst 2]))).
    reflexivity.
Defined.

(** C8, as stated, fails: an array denoter whose inner denoter is an array
    denoter with a null inner denoter throws, and its own inner denoter is
    not null. *)
Lemma ToString_raises_inner_not_null :
  ~ (raises (ToString (ArrayTypeDenoter
                         (Some (ArrayTypeDenoter None [])) [DimConst 2]))
     <-> Some (ArrayTypeDenoter None []) = None).
Proof.
  intros [Honly_if _].
  assert (Hraises : raises (ToString (ArrayTypeDenoter
                                        (Some (ArrayTypeDenoter None []))
                                        [DimConst 2]))).
  { eexists. reflexivity. }
  specialize (Honly_if Hraises). discriminate Honly_if.
Qed.

(** ** The if-block stack *)

(** C10: a default-constructed [IfBlock] has [active = true] and
    [expectEndif = false]; [TopIfBlock] on the empty stack returns it, so the
    state outside every conditional group is active and text there is
    processed (emitted, with its macros expanded); [PushIfBlock] with its
    default arguments pushes, on every stack, one block with
    [active = false] and [expectEndif = false], and text under that block is
    not processed (only its newlines are emitted). *)
Theorem IfBlock_default_state :
  active IfBlock_default = true
  /\ expectEndif IfBlock_default = false
  /\ TopIfBlock [] = IfBlock_default
  /\ active (TopIfBlock []) = true
  /\ (forall expand text, ProcessText expand [] text = expand text)
  /\ (forall source token ifBlockStack_,
         PushIfBlock_default source token ifBlockStack_
         = {| directiveToken := token; directiveSource := source;
              active := false; expectEndif := false |} :: ifBlockStack_)
  /\ (forall source token ifBlockStack_,
         active (TopIfBlock (PushIfBlock_default source token ifBlockStack_))
         = false
         /\ expectEndif (TopIfBlock (PushIfBlock_default source token ifBlockStack_))
            = false)
  /\ (forall expand source token ifBlockStack_ text,
         ProcessText expand (PushIfBlock_default source token ifBlockStack_) text
         = only_newlines text).
Proof.
  assert (Hpush : forall source token ifBlockStack_,
             PushIfBlock_default source token ifBlockStack_
             = {| directiveToken := token; directiveSource := source;
                  active := false; expectEndif := false |} :: ifBlockStack_).
  { intros source token ifBlockStack_.
    unfold PushIfBlock_default, PushIfBlock. now rewrite andb_false_r. }
  repeat apply conj; try reflexivity.
  - exact Hpush.
  - intros source token ifBlockStack_. now rewrite Hpush.
  - intros expand source token ifBlockStack_ text. now rewrite Hpush.
Qed.

(** Text without macros at the top level comes out as it is; under a block
    pushed with the default arguments a line of text leaves its newline. *)
Lemma ProcessText_examples :
  let line := "float4 color;" +:+ String "010"%char "" in
  ProcessText (fun text => text) [] line = line
  /\ ProcessText (fun text => text)
                 (PushIfBlock_default None (Some "ifdef") []) line
     = String "010"%char "".
Proof. split; vm_compute; reflexivity. Qed.

(** * Further properties *)

(** ** The keyword tables against each other *)

(** A statement about every entry of a table is decided by running through
    the table. *)
Ltac decide_by_compute :=
  match goal with
  | |- ?G => apply (bool_decide_eq_true_1 G); vm_compute; reflexivity
  end.

Lemma returns_lookup {T : Type} (typeMap : gmap string T)
    (keyword typeName : string) :
  returns (MapKeywordToType typeMap keyword typeName)
  <-> exists v, typeMap !! keyword = Some v.
Proof. rewrite MapKeywordToType_returns_iff. reflexivity. Qed.

Lemma raises_lookup {T : Type} (typeMap : gmap string T)
    (keyword typeName : string) :
  raises (MapKeywordToType typeMap keyword typeName)
  <-> typeMap !! keyword = None.
Proof.
  rewrite raises_iff_not_returns, returns_lookup.
  destruct (typeMap !! keyword) as [v|]; split.
  - intros Hnot. exfalso. apply Hnot. now exists v.
  - discriminate.
  - reflexivity.
  - intros _ [v Hv]. discriminate Hv.
Qed.

Lemma data_type_keys_are_type_keywords :
  map_Forall (fun s (_ : DataType.t) =>
                HLSLKeywords !! s = Some Tokens.StringType
                \/ HLSLKeywords !! s = Some Tokens.ScalarType
                \/ HLSLKeywords !! s = Some Tokens.VectorType
                \/ HLSLKeywords !! s = Some Tokens.MatrixType)
             GenerateDataTypeMap.
Proof. decide_by_compute. Qed.

Lemma type_keywords_are_data_type_keys :
  map_Forall (fun s k =>
                k = Tokens.StringType \/ k = Tokens.ScalarType
                \/ k = Tokens.VectorType \/ k = Tokens.MatrixType ->
                is_Some (GenerateDataTypeMap !! s))
             HLSLKeywords.
Proof. decide_by_compute. Qed.

(** X1: [HLSLKeywordToDataType] returns on a spelling iff the keyword table
    classifies the spelling as a string, scalar, vector or matrix type. *)
Theorem data_type_keywords_agree (s : string) :
  returns (HLSLKeywordToDataType s)
  <-> HLSLKeywords !! s = Some Tokens.StringType
      \/ HLSLKeywords !! s = Some Tokens.ScalarType
      \/ HLSLKeywords !! s = Some Tokens.VectorType
      \/ HLSLKeywords !! s = Some Tokens.MatrixType.
Proof.
  unfold HLSLKeywordToDataType. rewrite returns_lookup. split.
  - intros [d Hd]. exact (data_type_keys_are_type_keywords s d Hd).
  - intros Hkind.
    assert (Hsome : is_Some (GenerateDataTypeMap !! s)).
    { destruct Hkind as [H|[H|[H|H]]];
        apply (type_keywords_are_data_type_keys s _ H); tauto. }
    destruct Hsome as [d Hd]. now exists d.
Qed.

Lemma data_type_keywords_agree_witness :
  returns (HLSLKeywordToDataType "half3x4")
  /\ (HLSLKeywords !! "dword1x1" = Some Tokens.StringType
      \/ HLSLKeywords !! "dword1x1" = Some Tokens.ScalarType
      \/ HLSLKeywords !! "dword1x1" = Some Tokens.VectorType
      \/ HLSLKeywords !! "dword1x1" = Some Tokens.MatrixType).
Proof.
  split.
  - apply (proj2 (data_type_keywords_agree "half3x4")).
    right. right. right. vm_compute. reflexivity.
  - apply (proj1 (data_type_keywords_agree "dword1x1")).
    exists DataType.UInt. vm_compute. reflexivity.
Defined.

Lemma token_kind_and_data_type_class :
  map_Forall (fun s d =>
                (HLSLKeywords !! s = Some Tokens.StringType <-> d = DataType.String)
                /\ (HLSLKeywords !! s = Some Tokens.ScalarType
                    <-> IsScalarType d = true)
                /\ (HLSLKeywords !! s = Some Tokens.VectorType
                    <-> IsVectorType d = true)
                /\ (HLSLKeywords !! s = Some Tokens.MatrixType
                    <-> IsMatrixType d = true))
             GenerateDataTypeMap.
Proof. decide_by_compute. Qed.

Lemma storage_class_keys_are_modifiers :
  map_Forall (fun s (_ : StorageClass.t) =>
                HLSLKeywords !! s = Some Tokens.StorageModifier \/ s = "uniform")
             GenerateStorageClassMap.
Proof. decide_by_compute. Qed.

Lemma modifiers_are_storage_class_keys :
  map_Forall (fun s k =>
                k = Tokens.StorageModifier ->
                is_Some (GenerateStorageClassMap !! s))
             HLSLKeywords.
Proof. decide_by_compute. Qed.

(** X2: [HLSLKeywordToStorageClass] returns on a spelling iff the keyword
    table classifies it as a storage modifier, or the spelling is
    ["uniform"], which the keyword table has as an input modifier. *)
Theorem storage_class_keywords_agree (s : string) :
  (returns (HLSLKeywordToStorageClass s)
   <-> HLSLKeywords !! s = Some Tokens.StorageModifier \/ s = "uniform")
  /\ HLSLKeywords !! "uniform" = Some Tokens.InputModifier
  /\ HLSLKeywordToStorageClass "uniform" = Ok StorageClass.Uniform.
Proof.
  split; [|split; vm_compute; reflexivity].
  unfold HLSLKeywordToStorageClass. rewrite returns_lookup. split.
  - intros [c Hc]. exact (storage_class_keys_are_modifiers s c Hc).
  - intros [Hkind | ->].
    + destruct (modifiers_are_storage_class_keys s _ Hkind eq_refl) as [c Hc].
      now exists c.
    + exists StorageClass.Uniform. vm_compute. reflexivity.
Qed.

Lemma storage_class_keywords_agree_witness :
  returns (HLSLKeywordToStorageClass "noperspective")
  /\ (HLSLKeywords !! "groupshared" = Some Tokens.StorageModifier
      \/ "groupshared" = "uniform").
Proof.
  split.
  - apply (proj2 (proj1 (storage_class_keywords_agree "noperspective"))).
    left. vm_compute. reflexivity.
  - apply (proj1 (proj1 (storage_class_keywords_agree "groupshared"))).
    exists StorageClass.GroupShared. vm_compute. reflexivity.
Defined.

Lemma buffer_type_keys_are_buffer_keywords :
  map_Forall (fun s (_ : BufferType.t) =>
                HLSLKeywords !! s = Some Tokens.Texture
                \/ HLSLKeywords !! s = Some Tokens.StorageBuffer
                \/ s = "StucturedBuffer" \/ s = "RWStucturedBuffer")
             GenerateBufferTypeMap.
Proof. decide_by_compute. Qed.

Lemma texture_keywords_are_buffer_type_keys :
  map_Forall (fun s k =>
                k = Tokens.Texture -> is_Some (GenerateBufferTypeMap !! s))
             HLSLKeywords.
Proof. decide_by_compute. Qed.

(** X3: [HLSLKeywordToBufferType] returns on every spelling that the keyword
    table classifies as a texture; a spelling on which it returns is a
    texture or storage buffer keyword, or one of the two keys
    ["StucturedBuffer"] and ["RWStucturedBuffer"], which the keyword table
    does not have. *)
Theorem buffer_type_keywords_agree (s : string) :
  (HLSLKeywords !! s = Some Tokens.Texture ->
   returns (HLSLKeywordToBufferType s))
  /\ (returns (HLSLKeywordToBufferType s) ->
      HLSLKeywords !! s = Some Tokens.Texture
      \/ HLSLKeywords !! s = Some Tokens.StorageBuffer
      \/ s = "StucturedBuffer" \/ s = "RWStucturedBuffer").
Proof.
  unfold HLSLKeywordToBufferType. rewrite returns_lookup. split.
  - intros Hkind.
    destruct (texture_keywords_are_buffer_type_keys s _ Hkind eq_refl) as [b Hb].
    now exists b.
  - intros [b Hb]. exact (buffer_type_keys_are_buffer_keywords s b Hb).
Qed.

Lemma buffer_type_keywords_agree_witness :
  returns (HLSLKeywordToBufferType "TextureCubeArray")
  /\ (HLSLKeywords !! "RWByteAddressBuffer" = Some Tokens.Texture
      \/ HLSLKeywords !! "RWByteAddressBuffer" = Some Tokens.StorageBuffer
      \/ "RWByteAddressBuffer" = "StucturedBuffer"
      \/ "RWByteAddressBuffer" = "RWStucturedBuffer").
Proof.
  split.
  - apply (proj1 (buffer_type_keywords_agree "TextureCubeArray")).
    vm_compute. reflexivity.
  - apply (proj2 (buffer_type_keywords_agree "RWByteAddressBuffer")).
    exists BufferType.RWByteAddressBuffer. vm_compute. reflexivity.
Defined.

Lemma data_type_keys_apart :
  map_Forall (fun s (_ : DataType.t) =>
                GenerateStorageClassMap !! s = None
                /\ GenerateBufferTypeMap !! s = None)
             GenerateDataTypeMap.
Proof. decide_by_compute. Qed.

Lemma storage_class_keys_apart :
  map_Forall (fun s (_ : StorageClass.t) =>
                GenerateDataTypeMap !! s = None
                /\ GenerateBufferTypeMap !! s = None)
             GenerateStorageClassMap.
Proof. decide_by_compute. Qed.

Lemma buffer_type_keys_apart :
  map_Forall (fun s (_ : BufferType.t) =>
                GenerateDataTypeMap !! s = None
                /\ GenerateStorageClassMap !! s = None)
             GenerateBufferTypeMap.
Proof. decide_by_compute. Qed.

(** X4: the three lookups accept disjoint sets of spellings: where one of
    them returns, the other two throw. *)
Theorem keyword_categories_disjoint (s : string) :
  (returns (HLSLKeywordToDataType s) ->
   raises (HLSLKeywordToStorageClass s) /\ raises (HLSLKeywordToBufferType s))
  /\ (returns (HLSLKeywordToStorageClass s) ->
      raises (HLSLKeywordToDataType s) /\ raises (HLSLKeywordToBufferType s))
  /\ (returns (HLSLKeywordToBufferType s) ->
      raises (HLSLKeywordToDataType s) /\ raises (HLSLKeywordToStorageClass s)).
Proof.
  unfold HLSLKeywordToDataType, HLSLKeywordToStorageClass, HLSLKeywordToBufferType.
  rewrite !returns_lookup, !raises_lookup. split; [|split].
  - intros [v Hv]. exact (data_type_keys_apart s v Hv).
  - intros [v Hv]. exact (storage_class_keys_apart s v Hv).
  - intros [v Hv]. exact (buffer_type_keys_apart s v Hv).
Qed.

Lemma keyword_categories_disjoint_witness :
  (raises (HLSLKeywordToStorageClass "int2") /\ raises (HLSLKeywordToBufferType "int2"))
  /\ (raises (HLSLKeywordToDataType "sample") /\ raises (HLSLKeywordToBufferType "sample"))
  /\ (raises (HLSLKeywordToDataType "Buffer")
      /\ raises (HLSLKeywordToStorageClass "Buffer")).
Proof.
  split; [|split].
  - apply (proj1 (keyword_categories_disjoint "int2")).
    exists DataType.Int2. vm_compute. reflexivity.
  - apply (proj1 (proj2 (keyword_categories_disjoint "sample"))).
    exists StorageClass.Sample. vm_compute. reflexivity.
  - apply (proj2 (proj2 (keyword_categories_disjoint "Buffer"))).
    exists BufferType.Buffer. vm_compute. reflexivity.
Defined.

Lemma storage_class_map_injective :
  map_Forall (fun s1 v1 =>
                map_Forall (fun s2 v2 => s1 <> s2 -> v1 <> v2)
                           GenerateStorageClassMap)
             GenerateStorageClassMap.
Proof. decide_by_compute. Qed.

Lemma buffer_type_map_injective :
  map_Forall (fun s1 v1 =>
                map_Forall (fun s2 v2 => s1 <> s2 -> v1 <> v2)
                           GenerateBufferTypeMap)
             GenerateBufferTypeMap.
Proof. decide_by_compute. Qed.

Lemma MapKeywordToType_Ok {T : Type} (typeMap : gmap string T)
    (keyword typeName : string) (v : T) :
  MapKeywordToType typeMap keyword typeName = Ok v ->
  typeMap !! keyword = Some v.
Proof.
  unfold MapKeywordToType. destruct (typeMap !! keyword) as [w|]; intros H.
  - now injection H as ->.
  - discriminate H.
Qed.

(** X5: different spellings never share a storage class, and never share a
    buffer type: the two lookups are injective where they return. *)
Theorem storage_class_buffer_type_injective (s1 s2 : string) :
  s1 <> s2 ->
  (forall c1 c2,
      HLSLKeywordToStorageClass s1 = Ok c1 ->
      HLSLKeywordToStorageClass s2 = Ok c2 -> c1 <> c2)
  /\ (forall b1 b2,
         HLSLKeywordToBufferType s1 = Ok b1 ->
         HLSLKeywordToBufferType s2 = Ok b2 -> b1 <> b2).
Proof.
  intros Hne. split.
  - intros c1 c2 H1%MapKeywordToType_Ok H2%MapKeywordToType_Ok.
    exact (storage_class_map_injective s1 c1 H1 s2 c2 H2 Hne).
  - intros b1 b2 H1%MapKeywordToType_Ok H2%MapKeywordToType_Ok.
    exact (buffer_type_map_injective s1 b1 H1 s2 b2 H2 Hne).
Qed.

Lemma storage_class_buffer_type_injective_witness :
  StorageClass.Shared <> StorageClass.GroupShared
  /\ BufferType.Texture2D <> BufferType.RWTexture2D.
Proof.
  split.
  - apply (proj1 (storage_class_buffer_type_injective "shared" "groupshared"
                    ltac:(discriminate))); vm_compute; reflexivity.
  - apply (proj2 (storage_class_buffer_type_injective "Texture2D" "RWTexture2D"
                    ltac:(discriminate))); vm_compute; reflexivity.
Defined.

(** X6: the token kind of a type keyword and the class of its data type
    agree: on a spelling where [HLSLKeywordToDataType] returns [d], the
    keyword table says string type iff [d] is [DataType::String], scalar type
    iff [d] is a scalar type, vector type iff a vector type, matrix type iff
    a matrix type. *)
Theorem token_kind_agrees_with_data_type (s : string) (d : DataType.t) :
  HLSLKeywordToDataType s = Ok d ->
  (HLSLKeywords !! s = Some Tokens.StringType <-> d = DataType.String)
  /\ (HLSLKeywords !! s = Some Tokens.ScalarType <-> IsScalarType d = true)
  /\ (HLSLKeywords !! s = Some Tokens.VectorType <-> IsVectorType d = true)
  /\ (HLSLKeywords !! s = Some Tokens.MatrixType <-> IsMatrixType d = true).
Proof.
  intros Hd%MapKeywordToType_Ok. exact (token_kind_and_data_type_class s d Hd).
Qed.

Lemma token_kind_agrees_with_data_type_witness :
  HLSLKeywords !! "dword1x1" = Some Tokens.ScalarType
  <-> IsScalarType DataType.UInt = true.
Proof.
  apply (token_kind_agrees_with_data_type "dword1x1" DataType.UInt).
  vm_compute. reflexivity.
Defined.

(** ** Castability, branch by branch *)

Lemma scalar_castable_iff (dataType : DataType.t) (targetType : TypeDenoter) :
  IsScalarType dataType = true ->
  IsCastableTo (BaseTypeDenoter dataType) targetType = true
  <-> Type_ targetType = Types.Base \/ Type_ targetType = Types.Struct.
Proof.
  intros Hscalar. cbn. unfold BaseTypeDenoter_IsCastableTo. rewrite Hscalar.
  now rewrite orb_true_iff, !bool_decide_eq_true.
Qed.

Lemma unclassified_castable_to_nothing (dataType : DataType.t)
    (targetType : TypeDenoter) :
  IsScalarType dataType = false ->
  IsVectorType dataType = false ->
  IsMatrixType dataType = false ->
  IsCastableTo (BaseTypeDenoter dataType) targetType = false.
Proof.
  intros Hscalar Hvector Hmatrix. cbn. unfold BaseTypeDenoter_IsCastableTo.
  now rewrite Hscalar, Hvector, Hmatrix.
Qed.

Lemma default_castable_iff (self targetType : TypeDenoter) :
  Type_ self <> Types.Void ->
  Type_ self <> Types.Base ->
  IsCastableTo self targetType = true <-> Type_ self = Type_ targetType.
Proof.
  intros Hvoid Hbase.
  destruct self; try contradiction; cbn; unfold TypeDenoter_IsCastableTo;
    apply bool_decide_eq_true.
Qed.

(** A base denoter that is neither scalar nor vector is castable to
    nothing. *)
Lemma not_scalar_vector_castable_to_nothing (dataType : DataType.t)
    (targetType : TypeDenoter) :
  IsScalarType dataType = false ->
  IsVectorType dataType = false ->
  IsCastableTo (BaseTypeDenoter dataType) targetType = false.
Proof.
  intros Hscalar Hvector. destruct (IsMatrixType dataType) eqn:Hmatrix.
  - now apply matrix_castable_to_nothing.
  - now apply unclassified_castable_to_nothing.
Qed.

(** X7: the whole relation.  [self] is castable to [targetType] in exactly
    three cases: [self] is a scalar base denoter and the target is a base or
    a struct denoter; both are vector base denoters of the same arity; [self]
    is neither void nor a base denoter and the target has the same tag. *)
Theorem IsCastableTo_true_iff (self targetType : TypeDenoter) :
  IsCastableTo self targetType = true
  <-> (exists dataType,
          self = BaseTypeDenoter dataType
          /\ IsScalarType dataType = true
          /\ (Type_ targetType = Types.Base \/ Type_ targetType = Types.Struct))
      \/ (exists dataType target_dataType,
             self = BaseTypeDenoter dataType
             /\ targetType = BaseTypeDenoter target_dataType
             /\ IsVectorType dataType = true
             /\ IsVectorType target_dataType = true
             /\ VectorTypeDim dataType = VectorTypeDim target_dataType)
      \/ (Type_ self <> Types.Void
          /\ Type_ self <> Types.Base
          /\ Type_ self = Type_ targetType).
Proof.
  split.
  - intros Hcast. destruct self as [|dataType| | | | | |].
    2: { destruct (IsScalarType dataType) eqn:Hscalar.
         - left. exists dataType. split; [reflexivity | split; [exact Hscalar|]].
           now apply scalar_castable_iff in Hcast.
         - destruct (IsVectorType dataType) eqn:Hvector.
           + right. left.
             apply vector_castable_iff in Hcast as (d & -> & Hd & Hdim);
               [|exact Hvector].
             now exists dataType, d.
           + rewrite not_scalar_vector_castable_to_nothing in Hcast by assumption.
             discriminate Hcast. }
    1: { cbv in Hcast. discriminate Hcast. }
    all: right; right; split; [discriminate | split; [discriminate|]];
      apply default_castable_iff in Hcast; [exact Hcast | discriminate ..].
  - intros [(d & -> & Hscalar & Htarget)
           | [(d & d' & -> & -> & Hvector & Hvector' & Hdim)
             | (Hvoid & Hbase & Htag)]].
    + now apply scalar_castable_iff.
    + apply vector_castable_iff; [exact Hvector|]. now exists d'.
    + now apply default_castable_iff.
Qed.

Lemma IsCastableTo_true_iff_witness :
  IsCastableTo (BaseTypeDenoter DataType.Double)
               (StructTypeDenoter "Light" None) = true
  /\ IsCastableTo (BaseTypeDenoter DataType.Bool2)
                  (BaseTypeDenoter DataType.Half2) = true
  /\ IsCastableTo (SamplerTypeDenoter 0) (SamplerTypeDenoter 3) = true.
Proof.
  split; [|split].
  - apply (proj2 (IsCastableTo_true_iff _ _)).
    left. exists DataType.Double. repeat split. right. reflexivity.
  - apply (proj2 (IsCastableTo_true_iff _ _)).
    right. left. exists DataType.Bool2, DataType.Half2. repeat split.
  - apply (proj2 (IsCastableTo_true_iff _ _)).
    right. right. repeat split; discriminate.
Defined.

(** Whatever the data type, a base denoter is castable to base and struct
    denoters only. *)
Lemma base_castable_target (dataType : DataType.t) (targetType : TypeDenoter) :
  IsCastableTo (BaseTypeDenoter dataType) targetType = true ->
  Type_ targetType = Types.Base \/ Type_ targetType = Types.Struct.
Proof.
  intros Hcast. destruct (IsScalarType dataType) eqn:Hscalar.
  - now apply scalar_castable_iff in Hcast.
  - destruct (IsVectorType dataType) eqn:Hvector.
    + apply vector_castable_iff in Hcast as (d & -> & _); [|exact Hvector].
      now left.
    + rewrite not_scalar_vector_castable_to_nothing in Hcast by assumption.
      discriminate Hcast.
Qed.

(** X8: castability is transitive. *)
Theorem IsCastableTo_transitive (a b c : TypeDenoter) :
  IsCastableTo a b = true ->
  IsCastableTo b c = true ->
  IsCastableTo a c = true.
Proof.
  intros Hab Hbc. destruct a as [|dataType| | | | | |].
  2: { destruct (IsScalarType dataType) eqn:Hscalar.
       - apply scalar_castable_iff; [exact Hscalar|].
         apply scalar_castable_iff in Hab; [|exact Hscalar].
         destruct b as [|b_dataType| | | | | |];
           try (destruct Hab as [Hab|Hab]; discriminate Hab).
         + now apply base_castable_target in Hbc.
         + right. symmetry.
           apply default_castable_iff in Hbc; [exact Hbc | discriminate ..].
       - destruct (IsVectorType dataType) eqn:Hvector.
         + apply vector_castable_iff in Hab as (db & -> & Hdb & Hdim);
             [|exact Hvector].
           apply vector_castable_iff in Hbc as (dc & -> & Hdc & Hdim');
             [|exact Hdb].
           apply vector_castable_iff; [exact Hvector|].
           exists dc. repeat split; congruence.
         + rewrite not_scalar_vector_castable_to_nothing in Hab by assumption.
           discriminate Hab. }
  1: { cbv in Hab. discriminate Hab. }
  all: apply default_castable_iff in Hab; [|discriminate ..];
    apply default_castable_iff; [discriminate ..|];
    rewrite Hab; apply default_castable_iff in Hbc;
    [exact Hbc | rewrite <- Hab; discriminate ..].
Qed.

Lemma IsCastableTo_transitive_witness :
  IsCastableTo (BaseTypeDenoter DataType.Float) (BaseTypeDenoter DataType.Half3)
  = true.
Proof.
  apply (IsCastableTo_transitive _ (BaseTypeDenoter DataType.Int3));
    vm_compute; reflexivity.
Defined.

(** X9: castability does not tell equal denoters apart, on either side. *)
Theorem IsCastableTo_respects_Equals (a a' b b' : TypeDenoter) :
  Equals a a' = true ->
  Equals b b' = true ->
  IsCastableTo a b = IsCastableTo a' b'.
Proof.
  intros [Ha Ha']%Equals_true_iff [Hb Hb']%Equals_true_iff.
  destruct a, a'; try discriminate Ha; destruct b, b'; try discriminate Hb;
    cbn in Ha', Hb'; simplify_eq; reflexivity.
Qed.

Lemma IsCastableTo_respects_Equals_witness :
  IsCastableTo (StructTypeDenoter "A" None) (ArrayTypeDenoter None [])
  = IsCastableTo (StructTypeDenoter "B" None)
                 (ArrayTypeDenoter (Some VoidTypeDenoter) [DimConst 2]).
Proof. apply IsCastableTo_respects_Equals; vm_compute; reflexivity. Defined.

(** ** Printing nested arrays *)

Lemma append_brackets_add (m n : nat) (typeName : string) :
  append_brackets n (append_brackets m typeName)
  = append_brackets (m + n) typeName.
Proof.
  revert typeName. induction m as [|m IH]; intros typeName; [reflexivity|].
  cbn [append_brackets Nat.add]. apply IH.
Qed.

(** X10: an array denoter over an array denoter prints like one array
    denoter with the inner dimensions followed by the outer ones; when the
    innermost pointer is null both throw the same error. *)
Theorem ToString_nested_array (baseTypeDenoter : option TypeDenoter)
    (inner_dims outer_dims : list ArrayDim) :
  ToString (ArrayTypeDenoter
              (Some (ArrayTypeDenoter baseTypeDenoter inner_dims)) outer_dims)
  = ToString (ArrayTypeDenoter baseTypeDenoter (app inner_dims outer_dims)).
Proof.
  cbn [ToString]. destruct baseTypeDenoter as [T|]; [|reflexivity].
  destruct (ToString T) as [s|what]; [|reflexivity].
  now rewrite append_brackets_add, length_app.
Qed.

(** X11: a denoter whose chain of inner denoters ends in a denoter [T] that
    is not an array prints as [T] followed by one ["[]"] for every dimension
    on the chain. *)
Theorem ToString_innermost (self T : TypeDenoter) :
  innermost self = Some T ->
  Type_ T <> Types.Array
  /\ exists s, ToString T = Ok s
               /\ ToString self = Ok (s +:+ brackets (total_dims self)).
Proof.
  revert T.
  induction self as [| | | | | | |arrayDims|base arrayDims IH]
    using TypeDenoter_chain_ind; intros T Hinner;
    try (injection Hinner as <-; split; [discriminate|];
         eexists; split; [reflexivity|]; cbn [total_dims brackets replicate];
         cbn; now rewrite append_nil_r).
  - discriminate Hinner.
  - cbn [innermost] in Hinner. destruct (IH T Hinner) as (Hnot & s & HT & Hbase).
    split; [exact Hnot|]. exists s. split; [exact HT|].
    cbn [ToString total_dims]. rewrite Hbase.
    rewrite <- (append_brackets_spec (total_dims base) s),
      append_brackets_add. now rewrite append_brackets_spec.
Qed.

Lemma ToString_innermost_witness :
  Type_ (AliasTypeDenoter "Color") <> Types.Array
  /\ exists s,
      ToString (AliasTypeDenoter "Color") = Ok s
      /\ ToString (ArrayTypeDenoter
                     (Some (ArrayTypeDenoter (Some (AliasTypeDenoter "Color"))
                                             [DimConst 3]))
                     [DimConst 2; DimUnbounded])
         = Ok (s +:+ brackets 3).
Proof. apply ToString_innermost. reflexivity. Defined.

(** ** Printing structs *)

Lemma struct_prefix_inj (s t : string) :
  Ok ("struct " +:+ s) = Ok ("struct " +:+ t) -> s = t.
Proof. intros H. injection H as H. exact H. Qed.

(** X12: two struct denoters print the same iff their identifiers are equal
    or each identifier is the empty one or ["<anonymous>"]. *)
Theorem StructTypeDenoter_ToString_eq_iff (ident1 ident2 : string)
    (ref1 ref2 : option StructDecl) :
  ToString (StructTypeDenoter ident1 ref1) = ToString (StructTypeDenoter ident2 ref2)
  <-> ident1 = ident2
      \/ ((ident1 = "" \/ ident1 = "<anonymous>")
          /\ (ident2 = "" \/ ident2 = "<anonymous>")).
Proof.
  cbn [ToString]. unfold StructTypeDenoter_ToString.
  do 2 case_bool_decide; subst; cbn [negb]; split.
  - intros _. now left.
  - reflexivity.
  - intros <-%struct_prefix_inj. right. split; [now left | now right].
  - intros [Heq | [_ [Heq | ->]]]; [now subst | contradiction | reflexivity].
  - intros ->%struct_prefix_inj. right. split; [now right | now left].
  - intros [Heq | [[Heq | ->] _]]; [now subst | contradiction | reflexivity].
  - intros ->%struct_prefix_inj. now left.
  - intros [-> | [[Heq | ->] [Heq' | ->]]]; try contradiction; reflexivity.
Qed.

Lemma StructTypeDenoter_ToString_eq_iff_witness :
  ToString (StructTypeDenoter_of_decl None)
  = ToString (StructTypeDenoter_of_ident "<anonymous>").
Proof.
  apply (proj2 (StructTypeDenoter_ToString_eq_iff "" "<anonymous>" None None)).
  right. split; [left | right]; reflexivity.
Defined.

(** ** Castability: void, and the direction of a cast *)

(** X13: a void denoter is neither the source nor the target of a cast. *)
Theorem IsCastableTo_never_void (self targetType : TypeDenoter) :
  IsCastableTo self targetType = true ->
  Type_ self <> Types.Void /\ Type_ targetType <> Types.Void.
Proof.
  intros Hcast. destruct self as [|dataType| | | | | |].
  2: { split; [discriminate|].
       destruct (base_castable_target _ _ Hcast) as [-> | ->]; discriminate. }
  1: { cbv in Hcast. discriminate Hcast. }
  all: apply default_castable_iff in Hcast; [|discriminate ..];
    rewrite <- Hcast; split; discriminate.
Qed.

Lemma IsCastableTo_never_void_witness :
  Type_ (BaseTypeDenoter DataType.Int) <> Types.Void
  /\ Type_ (StructTypeDenoter "Material" None) <> Types.Void.
Proof. apply IsCastableTo_never_void. vm_compute. reflexivity. Defined.

(** X14: only a cast from a scalar has a direction: when [self] is not a
    scalar base denoter and is castable to [targetType], then [targetType] is
    castable to [self]. *)
Theorem IsCastableTo_symmetric_unless_scalar (self targetType : TypeDenoter) :
  IsScalar self = false ->
  IsCastableTo self targetType = true ->
  IsCastableTo targetType self = true.
Proof.
  intros Hscalar Hcast. destruct self as [|dataType| | | | | |].
  2: { cbn in Hscalar. destruct (IsVectorType dataType) eqn:Hvector.
       - apply vector_castable_iff in Hcast as (d & -> & Hd & Hdim);
           [|exact Hvector].
         apply vector_castable_iff; [exact Hd|]. now exists dataType.
       - rewrite not_scalar_vector_castable_to_nothing in Hcast by assumption.
         discriminate Hcast. }
  1: { cbv in Hcast. discriminate Hcast. }
  all: apply default_castable_iff in Hcast; [|discriminate ..];
    apply default_castable_iff; [rewrite <- Hcast; discriminate .. | now symmetry].
Qed.

Lemma IsCastableTo_symmetric_unless_scalar_witness :
  IsCastableTo (BaseTypeDenoter DataType.UInt4) (BaseTypeDenoter DataType.Float4)
  = true.
Proof.
  apply IsCastableTo_symmetric_unless_scalar; vm_compute; reflexivity.
Defined.

(** The direction of a cast from a scalar: a vector is not castable back. *)
Lemma scalar_cast_not_symmetric :
  IsCastableTo (BaseTypeDenoter DataType.Float) (BaseTypeDenoter DataType.Float3)
  = true
  /\ IsCastableTo (BaseTypeDenoter DataType.Float3) (BaseTypeDenoter DataType.Float)
     = false.
Proof. split; vm_compute; reflexivity. Qed.
